(** * Starline Salvage: the game-state machine of [backend/main.py]

    A shallow embedding of the backend of the game: the world generator
    ([generate_anomalies], [generate_stations]), the session store
    ([games]), the state projector ([public_state]) and the action
    resolver ([act]), followed by the properties of the resolver.

    Python integers are unbounded and are modelled by [Z]; Python floats
    are IEEE 754 binary64 numbers and are modelled by Rocq's primitive
    floats; Python strings are modelled by [string] (a sequence of
    bytes: the UTF-8 encoding of the text).  The session objects are
    mutated in place by [act], also on the paths that end in an
    exception, so the resolver is written in a state-and-exception monad
    whose exceptions keep the state reached so far. *)

From Stdlib Require Import ZArith Lia Ascii String.
From Stdlib Require Import Floats.PrimFloat Numbers.Cyclic.Int63.Uint63.
From stdpp Require Import base option list strings pretty gmap.

Set Warnings "-inexact-float".
Local Open Scope Z_scope.

(** ** Constants *)

Definition MAP_SIZE : Z := 5.
Definition GOAL_CREDITS : Z := 120.
Definition MAX_FUEL : Z := 12.
Definition MAX_HULL : Z := 10.

(** ** Data model *)

Module ActionRequest.
Record t := mk {
  game_id : string;
  action : string;
  direction : option string;
  target_id : option string;
  item : option string;
}.
End ActionRequest.

Module Anomaly.
Record t := mk {
  id : string;
  name : string;
  x : Z;
  y : Z;
  value : Z;
  risk : Z;
  collected : bool;
}.

(** [anomaly["collected"] = True] *)
Definition set_collected (b : bool) (a : t) : t :=
  mk (id a) (name a) (x a) (y a) (value a) (risk a) b.
End Anomaly.

Module Station.
Record t := mk {
  id : string;
  name : string;
  x : Z;
  y : Z;
}.
End Station.

Module PendingEvent.
Record t := mk {
  type : string;
  threat : Z;
}.
End PendingEvent.

(** The three strings the code ever stores in [status]. *)
Inductive Status := active | won | lost.

Global Instance Status_eq_dec : EqDecision Status.
Proof. solve_decision. Defined.

Module GameState.
Record t := mk {
  id : string;
  seed : Z;
  turn : Z;
  x : Z;
  y : Z;
  fuel : Z;
  hull : Z;
  credits : Z;
  status : Status;
  log : list string;
  anomalies : list Anomaly.t;
  stations : list Station.t;
  pending_event : option PendingEvent.t;
}.

(** Attribute assignments [state.f = v]. *)
Definition set_turn (v : Z) (s : t) : t :=
  mk (id s) (seed s) v (x s) (y s) (fuel s) (hull s) (credits s)
     (status s) (log s) (anomalies s) (stations s) (pending_event s).
Definition set_x (v : Z) (s : t) : t :=
  mk (id s) (seed s) (turn s) v (y s) (fuel s) (hull s) (credits s)
     (status s) (log s) (anomalies s) (stations s) (pending_event s).
Definition set_y (v : Z) (s : t) : t :=
  mk (id s) (seed s) (turn s) (x s) v (fuel s) (hull s) (credits s)
     (status s) (log s) (anomalies s) (stations s) (pending_event s).
Definition set_fuel (v : Z) (s : t) : t :=
  mk (id s) (seed s) (turn s) (x s) (y s) v (hull s) (credits s)
     (status s) (log s) (anomalies s) (stations s) (pending_event s).
Definition set_hull (v : Z) (s : t) : t :=
  mk (id s) (seed s) (turn s) (x s) (y s) (fuel s) v (credits s)
     (status s) (log s) (anomalies s) (stations s) (pending_event s).
Definition set_credits (v : Z) (s : t) : t :=
  mk (id s) (seed s) (turn s) (x s) (y s) (fuel s) (hull s) v
     (status s) (log s) (anomalies s) (stations s) (pending_event s).
Definition set_status (v : Status) (s : t) : t :=
  mk (id s) (seed s) (turn s) (x s) (y s) (fuel s) (hull s) (credits s)
     v (log s) (anomalies s) (stations s) (pending_event s).
Definition set_log (v : list string) (s : t) : t :=
  mk (id s) (seed s) (turn s) (x s) (y s) (fuel s) (hull s) (credits s)
     (status s) v (anomalies s) (stations s) (pending_event s).
Definition set_anomalies (v : list Anomaly.t) (s : t) : t :=
  mk (id s) (seed s) (turn s) (x s) (y s) (fuel s) (hull s) (credits s)
     (status s) (log s) v (stations s) (pending_event s).
Definition set_pending_event (v : option PendingEvent.t) (s : t) : t :=
  mk (id s) (seed s) (turn s) (x s) (y s) (fuel s) (hull s) (credits s)
     (status s) (log s) (anomalies s) (stations s) v.
End GameState.

(** The session store [games: Dict[str, GameState]]. *)
Abbreviation Games := (gmap string GameState.t).

(** ** The Python runtime the module calls into

    [random.Random], [int] and [uuid.uuid4] are not code of the game;
    the embedding is parametric in them.  [Random seed] is
    [random.Random(seed)] for an integer seed, [random g] is one call of
    [g.random()] and [randbelow g n] one call of [g._randbelow(n)], each
    returning the generator after the draw.  CPython implements
    [randrange], [randint] and [choice] with [_randbelow], as done
    below.  [int16 s] is [int(s, 16)], with [None] for [ValueError].
    [uuid4_hex k] is the result of the [k]-th evaluation of
    [uuid.uuid4().hex] since the process started: the operating system's
    entropy, which no seed of the game determines.  It is a string of
    32 hexadecimal digits, so it is not empty and [int] reads its first
    eight characters. *)
Class PyRuntime := {
  Rng : Type;
  Random : Z -> Rng;
  random : Rng -> float * Rng;
  randbelow : Rng -> Z -> Z * Rng;
  randbelow_range : forall g n, 0 < n -> 0 <= (randbelow g n).1 < n;
  int16 : string -> option Z;
  uuid4_hex : nat -> string;
  uuid4_hex_nonempty : forall k, uuid4_hex k <> "";
  uuid4_hex_int16 : forall k, is_Some (int16 (substring 0 8 (uuid4_hex k)));
}.

(** [str.lower()], on the ASCII letters.  The bytes of a character
    outside ASCII are left as they are; no such character lowers to a
    letter of an action name or of a direction. *)
Definition lower_ascii (c : ascii) : ascii :=
  let n := nat_of_ascii c in
  if ((65 <=? n) && (n <=? 90))%nat then ascii_of_nat (n + 32) else c.

Fixpoint lower (s : string) : string :=
  match s with
  | EmptyString => EmptyString
  | String c s' => String (lower_ascii c) (lower s')
  end.

(** [float(z)], the conversion Python applies to the integer operand of
    [int * float]; exact for [|z| < 2^53]. *)
Definition float_of_Z (z : Z) : float :=
  if z <? 0 then PrimFloat.opp (PrimFloat.of_uint63 (Uint63.of_Z (- z)))
  else PrimFloat.of_uint63 (Uint63.of_Z z).

(** [str(z)] inside an f-string. *)
Definition str (z : Z) : string := pretty z.

(** ** The state-and-exception monad of the resolver *)

Inductive Exception :=
| HTTPException (status_code : Z) (detail : string)
| ValueError.

Inductive Result (A : Type) :=
| Return (a : A)
| Raise (e : Exception).
Arguments Return {A} a.
Arguments Raise {A} e.

(** A computation on the session object: it returns the object as it has
    been mutated so far together with a value or the exception raised. *)
Definition M (A : Type) : Type := GameState.t -> GameState.t * Result A.

Global Instance M_ret : MRet M := fun A a s => (s, Return a).
Global Instance M_bind : MBind M := fun A B f m s =>
  match m s with
  | (s', Return a) => f a s'
  | (s', Raise e) => (s', Raise e)
  end.

Definition get : M GameState.t := fun s => (s, Return s).
Definition modify (f : GameState.t -> GameState.t) : M unit :=
  fun s => (f s, Return tt).
Definition raise {A} (e : Exception) : M A := fun s => (s, Raise e).

(** [state.log.append(msg)] *)
Definition log_append (msg : string) : M unit :=
  modify (fun s => GameState.set_log (GameState.log s ++ [msg]) s).

(** ** State projector *)

Module Offer.
Record t := mk { id : string; label : string; price : Z }.
End Offer.

Module StationView.
Record t := mk { id : string; name : string; offers : list Offer.t }.
End StationView.

Module Nearby.
Record t := mk { id : string; name : string; value : Z; risk : Z }.
End Nearby.

Module PublicState.
Record t := mk {
  id : string;
  turn : Z;
  x : Z;
  y : Z;
  fuel : Z;
  hull : Z;
  credits : Z;
  status : Status;
  log : list string;
  mapSize : Z;
  goalCredits : Z;
  nearby : list Nearby.t;
  station : option StationView.t;
  pendingEvent : option PendingEvent.t;
}.
End PublicState.

Definition station_offers : list Offer.t :=
  [ Offer.mk "fuel_cell" "Fuel Cells (+2 fuel)" 4;
    Offer.mk "hull_patch" "Hull Patch (+1 hull)" 6 ].

Definition current_station (state : GameState.t) : option Station.t :=
  snd <$> list_find
    (fun s => Station.x s = GameState.x state /\ Station.y s = GameState.y state)
    (GameState.stations state).

(** [log[-8:]] *)
Definition last8 (log : list string) : list string :=
  drop (length log - 8) log.

Definition public_state (state : GameState.t)
    (nearby : option (list Nearby.t)) : PublicState.t :=
  let station := current_station state in
  PublicState.mk
    (GameState.id state) (GameState.turn state)
    (GameState.x state) (GameState.y state)
    (GameState.fuel state) (GameState.hull state)
    (GameState.credits state) (GameState.status state)
    (last8 (GameState.log state))
    MAP_SIZE GOAL_CREDITS
    (default [] nearby)
    ((fun s => StationView.mk (Station.id s) (Station.name s) station_offers)
       <$> station)
    (GameState.pending_event state).

Definition update_status (state : GameState.t) : GameState.t :=
  if GameState.hull state <=? 0 then GameState.set_status lost state
  else if (GOAL_CREDITS <=? GameState.credits state)
          && (GameState.x state =? 0) && (GameState.y state =? 0)
  then GameState.set_status won state
  else GameState.set_status active state.

Definition health : list (string * string) := [("status", "ok")].

Section Game.
Context `{py : PyRuntime}.

(** ** Draws built on [_randbelow], as in CPython's [random.py] *)

(** [rng.randrange(stop)] *)
Definition randrange (rng : Rng) (stop : Z) : Z * Rng := randbelow rng stop.

(** [rng.randint(a, b)] *)
Definition randint (rng : Rng) (a b : Z) : Z * Rng :=
  let '(k, rng) := randbelow rng (b - a + 1) in (a + k, rng).

(** [rng.choice(seq)] *)
Definition choice (rng : Rng) (seq : list string) : string * Rng :=
  let '(k, rng) := randbelow rng (Z.of_nat (length seq)) in
  (nth (Z.to_nat k) seq "", rng).

(** ** World generator *)

Definition anomaly_names : list string :=
  [ "Derelict Skiff"; "Glitter Cache"; "Drift Beacon"; "Ice Vault";
    "Hollow Freighter"; "Cracked Probe"; "Solar Wreck"; "Echo Relay";
    "Quiet Tomb"; "Shard Garden" ].

(** The body of [for _ in range(k)]: [u] counts the calls of
    [uuid.uuid4] made so far. *)
Fixpoint generate_anomalies_loop (k : nat) (rng : Rng) (u : nat)
    (anomalies : list Anomaly.t) : list Anomaly.t * nat :=
  match k with
  | O => (anomalies, u)
  | S k' =>
    let '(name, rng) := choice rng anomaly_names in
    let '(x, rng) := randrange rng MAP_SIZE in
    let '(y, rng) := randrange rng MAP_SIZE in
    let '(value, rng) := randint rng 10 40 in
    let '(risk, rng) := randint rng 1 4 in
    let anomaly_id := uuid4_hex u in
    generate_anomalies_loop k' rng (S u)
      (anomalies ++ [Anomaly.mk anomaly_id name x y value risk false])
  end.

Definition generate_anomalies (seed : Z) (u : nat) : list Anomaly.t * nat :=
  generate_anomalies_loop 10 (Random seed) u [].

Definition station_names : list string :=
  [ "Cinder Tradepost"; "Nova Exchange"; "Kepler Bazaar"; "Drydock 19";
    "Marrow Port" ].

(** [any(s["x"] == x and s["y"] == y for s in stations)] *)
Definition occupied (stations : list Station.t) (x y : Z) : bool :=
  existsb (fun s => (Station.x s =? x) && (Station.y s =? y)) stations.

(** The loop [while len(stations) < 3].  Python gives no bound on the
    number of rejected draws; [fuel] bounds the iterations of the model
    and [None] says that the bound was reached before the loop ended. *)
Fixpoint generate_stations_loop (fuel : nat) (rng : Rng) (u : nat)
    (stations : list Station.t) : option (list Station.t * nat) :=
  if (3 <=? length stations)%nat then Some (stations, u)
  else
    match fuel with
    | O => None
    | S fuel' =>
      let '(x, rng) := randrange rng MAP_SIZE in
      let '(y, rng) := randrange rng MAP_SIZE in
      if (x =? 0) && (y =? 0) then generate_stations_loop fuel' rng u stations
      else if occupied stations x y
      then generate_stations_loop fuel' rng u stations
      else
        let station_id := uuid4_hex u in
        let '(name, rng) := choice rng station_names in
        generate_stations_loop fuel' rng (S u)
          (stations ++ [Station.mk station_id name x y])
    end.

Definition generate_stations (fuel : nat) (seed : Z) (u : nat)
    : option (list Station.t * nat) :=
  generate_stations_loop fuel (Random (seed + 4242)) u [].

(** ** Session creation

    [clock] is the generator [random.Random(time.time())].
    [new_session] is the object [GameState(...)] that [new_game] makes,
    and [new_game] stores it under its identifier. *)
Definition new_session (fuel : nat) (clock : Rng) (u : nat)
    : option (GameState.t * nat) :=
  let '(seed, _) := randint clock 1 999999 in
  let game_id := uuid4_hex u in
  let '(anomalies, u) := generate_anomalies seed (S u) in
  '(stations, u) ← generate_stations fuel seed u;
  Some (GameState.mk game_id seed 1 0 0 MAX_FUEL MAX_HULL 20 active
          ["Docked at Base. Systems green."] anomalies stations None, u).

Definition new_game (fuel : nat) (games : Games) (clock : Rng) (u : nat)
    : option (Games * PublicState.t * nat) :=
  '(state, u) ← new_session fuel clock u;
  Some (<[GameState.id state := state]> games, public_state state None, u).

(** ** Action resolver: the branches of [act] *)

Definition bad_request {A} (detail : string) : M A :=
  raise (HTTPException 400 detail).

Definition act_scan : M (list Nearby.t) :=
  state ← get;
  let nearby :=
    (fun a => Nearby.mk (Anomaly.id a) (Anomaly.name a)
                        (Anomaly.value a) (Anomaly.risk a))
    <$> filter (fun a => Anomaly.collected a = false
                         /\ Anomaly.x a = GameState.x state
                         /\ Anomaly.y a = GameState.y state)
               (GameState.anomalies state) in
  match nearby with
  | _ :: _ =>
    log_append ("Scan pinged " +:+ str (Z.of_nat (length nearby))
                +:+ " salvage signatures.")
  | [] => log_append "Scan found nothing but cold dust."
  end;;
  mret nearby.

Definition act_travel (request : ActionRequest.t) (rng : Rng) : M unit :=
  state ← get;
  if GameState.fuel state <=? 0 then bad_request "Out of fuel" else
  let direction := lower (default "" (ActionRequest.direction request)) in
  d ← (if decide (direction = "n") then mret (0, -1)
       else if decide (direction = "s") then mret (0, 1)
       else if decide (direction = "w") then mret (-1, 0)
       else if decide (direction = "e") then mret (1, 0)
       else bad_request "Invalid direction");
  let '(dx, dy) := d in
  let new_x := GameState.x state + dx in
  let new_y := GameState.y state + dy in
  if (new_x <? 0) || (MAP_SIZE <=? new_x) || (new_y <? 0) || (MAP_SIZE <=? new_y)
  then bad_request "Out of bounds" else
  modify (GameState.set_x new_x);;
  modify (GameState.set_y new_y);;
  modify (fun s => GameState.set_fuel (GameState.fuel s - 1) s);;
  let '(r, rng) := random rng in
  (if (r <? 0.15)%float
   then modify (fun s => GameState.set_hull (GameState.hull s - 1) s);;
        log_append "Micrometeor swarm scraped the hull."
   else log_append "Transit clean. Engines humming.");;
  let '(r, rng) := random rng in
  if (r <? 0.2)%float
  then
    let '(threat, rng) := randint rng 1 3 in
    modify (GameState.set_pending_event
              (Some (PendingEvent.mk "pirate_ambush" threat)));;
    log_append "Pirate ambush! They demand cargo or a fight."
  else mret ().

Definition act_salvage (request : ActionRequest.t) : M unit :=
  match ActionRequest.target_id request with
  | None | Some "" => bad_request "Missing target_id"
  | Some target_id =>
    state ← get;
    match list_find (fun a => Anomaly.id a = target_id)
                    (GameState.anomalies state) with
    | None => bad_request "Invalid salvage target"
    | Some (i, anomaly) =>
      if Anomaly.collected anomaly then bad_request "Invalid salvage target"
      else if negb (Anomaly.x anomaly =? GameState.x state)
              || negb (Anomaly.y anomaly =? GameState.y state)
      then bad_request "Target not in sector"
      else
        match int16 (substring 0 8 target_id) with
        | None => raise ValueError
        | Some k =>
          let roll := (random (Random (GameState.seed state + k))).1 in
          (if (roll <? float_of_Z (Anomaly.risk anomaly) * 0.15)%float
           then modify (fun s => GameState.set_hull (GameState.hull s - 1) s);;
                log_append "Salvage snap-back dented the hull."
           else mret ());;
          modify (fun s => GameState.set_credits
                             (GameState.credits s + Anomaly.value anomaly) s);;
          modify (fun s => GameState.set_anomalies
                             (<[i := Anomaly.set_collected true anomaly]>
                                (GameState.anomalies s)) s);;
          log_append ("Recovered " +:+ Anomaly.name anomaly +:+ " worth "
                      +:+ str (Anomaly.value anomaly) +:+ " credits.")
        end
    end
  end.

Definition act_trade (request : ActionRequest.t) : M unit :=
  state ← get;
  match current_station state with
  | None => bad_request "No trade station here"
  | Some station =>
    let item := ActionRequest.item request in
    if decide (item = Some "fuel_cell") then
      let price := 4 in
      if GameState.credits state <? price then bad_request "Not enough credits"
      else if MAX_FUEL <=? GameState.fuel state
      then bad_request "Fuel already full"
      else
        modify (fun s => GameState.set_credits (GameState.credits s - price) s);;
        modify (fun s => GameState.set_fuel
                           (Z.min MAX_FUEL (GameState.fuel s + 2)) s);;
        log_append "Traded for fuel cells."
    else if decide (item = Some "hull_patch") then
      let price := 6 in
      if GameState.credits state <? price then bad_request "Not enough credits"
      else if MAX_HULL <=? GameState.hull state
      then bad_request "Hull already full"
      else
        modify (fun s => GameState.set_credits (GameState.credits s - price) s);;
        modify (fun s => GameState.set_hull
                           (Z.min MAX_HULL (GameState.hull s + 1)) s);;
        log_append "Installed a fresh hull patch."
    else bad_request "Invalid trade item"
  end.

Definition act_refuel : M unit :=
  state ← get;
  if negb (GameState.x state =? 0) || negb (GameState.y state =? 0)
  then bad_request "Refuel only at base"
  else if GameState.credits state <? 5 then bad_request "Not enough credits"
  else if MAX_FUEL <=? GameState.fuel state then bad_request "Fuel already full"
  else
    modify (fun s => GameState.set_credits (GameState.credits s - 5) s);;
    modify (fun s => GameState.set_fuel (Z.min MAX_FUEL (GameState.fuel s + 3)) s);;
    log_append "Docking bay topped off fuel reserves.".

Definition act_repair : M unit :=
  state ← get;
  if negb (GameState.x state =? 0) || negb (GameState.y state =? 0)
  then bad_request "Repair only at base"
  else if GameState.credits state <? 8 then bad_request "Not enough credits"
  else if MAX_HULL <=? GameState.hull state then bad_request "Hull already full"
  else
    modify (fun s => GameState.set_credits (GameState.credits s - 8) s);;
    modify (fun s => GameState.set_hull (Z.min MAX_HULL (GameState.hull s + 2)) s);;
    log_append "Mechanics sealed the hull fractures.".

Definition act_fight (rng : Rng) : M unit :=
  state ← get;
  match GameState.pending_event state with
  | None => bad_request "No active threat"
  | Some pending_event =>
    let threat := PendingEvent.threat pending_event in
    let '(r, rng) := random rng in
    (if (r <? 0.55)%float
     then
       let reward := threat * 6 in
       modify (fun s => GameState.set_credits (GameState.credits s + reward) s);;
       log_append ("Fought off pirates and looted " +:+ str reward
                   +:+ " credits.")
     else
       let damage := threat in
       let loss := Z.min (GameState.credits state) (threat * 4) in
       modify (fun s => GameState.set_hull (GameState.hull s - damage) s);;
       modify (fun s => GameState.set_credits (GameState.credits s - loss) s);;
       log_append "Pirates scored hits before breaking off.");;
    modify (GameState.set_pending_event None)
  end.

Definition act_bribe : M unit :=
  state ← get;
  match GameState.pending_event state with
  | None => bad_request "No active threat"
  | Some pending_event =>
    let threat := PendingEvent.threat pending_event in
    let cost := threat * 8 in
    if GameState.credits state <? cost then bad_request "Not enough credits"
    else
      modify (fun s => GameState.set_credits (GameState.credits s - cost) s);;
      modify (GameState.set_pending_event None);;
      log_append "Paid off the pirates. They drift away."
  end.

Definition act_evade (rng : Rng) : M unit :=
  state ← get;
  match GameState.pending_event state with
  | None => bad_request "No active threat"
  | Some _ =>
    if GameState.fuel state <=? 0 then bad_request "Out of fuel"
    else
      modify (fun s => GameState.set_fuel (GameState.fuel s - 1) s);;
      let '(r, rng) := random rng in
      (if (r <? 0.4)%float
       then modify (fun s => GameState.set_hull (GameState.hull s - 1) s);;
            log_append "Evasion failed. Took a glancing hit."
       else log_append "Evasion successful. Pirates lost the trail.");;
      modify (GameState.set_pending_event None)
  end.

(** ** Action resolver: [act] *)

(** The chain [if action == "scan": ... elif ... else: raise]; its
    value is the local variable [nearby]. *)
Definition act_dispatch (request : ActionRequest.t) (action : string)
    (rng : Rng) : M (option (list Nearby.t)) :=
  if decide (action = "scan") then nearby ← act_scan; mret (Some nearby)
  else if decide (action = "travel") then act_travel request rng;; mret None
  else if decide (action = "salvage") then act_salvage request;; mret None
  else if decide (action = "trade") then act_trade request;; mret None
  else if decide (action = "refuel") then act_refuel;; mret None
  else if decide (action = "repair") then act_repair;; mret None
  else if decide (action = "fight") then act_fight rng;; mret None
  else if decide (action = "bribe") then act_bribe;; mret None
  else if decide (action = "evade") then act_evade rng;; mret None
  else bad_request "Unknown action".

(** The generator of the per-action rolls, made before the branches
    run. *)
Definition action_rng (state : GameState.t) : Rng :=
  Random (GameState.seed state + GameState.turn state * 31
          + GameState.x state * 13 + GameState.y state * 7).

(** The body of [act] once the session object has been found. *)
Definition act_session (request : ActionRequest.t) : M PublicState.t :=
  state ← get;
  if negb (bool_decide (GameState.status state = active))
  then mret (public_state state None) else
  let action := lower (ActionRequest.action request) in
  let rng := action_rng state in
  if bool_decide (is_Some (GameState.pending_event state))
     && negb (bool_decide (action ∈ ["fight"; "bribe"; "evade"]))
  then bad_request "Resolve the ambush first" else
  nearby ← act_dispatch request action rng;
  modify (fun s => GameState.set_turn (GameState.turn s + 1) s);;
  modify update_status;;
  state ← get;
  mret (public_state state nearby).

(** [act]: the session object found in [games] is mutated in place, so
    the store holds the object as the call left it, whether it returned
    or raised. *)
Definition act (games : Games) (request : ActionRequest.t)
    : Games * Result PublicState.t :=
  match games !! ActionRequest.game_id request with
  | None => (games, Raise (HTTPException 404 "Game not found"))
  | Some state =>
    let '(state, r) := act_session request state in
    (<[ActionRequest.game_id request := state]> games, r)
  end.

End Game.

(** ** CPython's runtime

    The generator of CPython's [random] module: the Mersenne Twister
    MT19937 of [_randommodule.c], seeded from an integer with
    [init_by_array], and [_randbelow_with_getrandbits] of [random.py].
    Words are [uint32_t]: every assignment is reduced modulo [2^32]. *)
Module MT19937.

Definition N : nat := 624.
Definition M : nat := 397.

Definition u32 (z : Z) : Z := Z.land z 0xffffffff.

Record state := mk { mt : list Z; index : nat }.

Definition word (mt : list Z) (i : nat) : Z := nth i mt 0.

Fixpoint init_genrand_loop (k : nat) (i : Z) (prev : Z) : list Z :=
  match k with
  | O => []
  | S k' =>
    let v := u32 (1812433253 * Z.lxor prev (Z.shiftr prev 30) + i) in
    v :: init_genrand_loop k' (i + 1) v
  end.

Definition init_genrand (s : Z) : list Z :=
  u32 s :: init_genrand_loop (N - 1) 1 (u32 s).

Definition wrap (mt : list Z) (i : nat) : list Z * nat :=
  if (N <=? i)%nat then (<[0%nat := word mt (N - 1)]> mt, 1%nat) else (mt, i).

Fixpoint init_by_array_mix (k : nat) (init_key : list Z)
    (mt : list Z) (i j : nat) : list Z * nat :=
  match k with
  | O => (mt, i)
  | S k' =>
    let prev := word mt (i - 1) in
    let v := u32 (Z.lxor (word mt i)
                         (Z.lxor prev (Z.shiftr prev 30) * 1664525)
                  + word init_key j + Z.of_nat j) in
    let '(mt, i) := wrap (<[i := v]> mt) (S i) in
    let j := if (length init_key <=? S j)%nat then O else S j in
    init_by_array_mix k' init_key mt i j
  end.

Fixpoint init_by_array_finish (k : nat) (mt : list Z) (i : nat) : list Z :=
  match k with
  | O => mt
  | S k' =>
    let prev := word mt (i - 1) in
    let v := u32 (Z.lxor (word mt i)
                         (Z.lxor prev (Z.shiftr prev 30) * 1566083941)
                  - Z.of_nat i) in
    let '(mt, i) := wrap (<[i := v]> mt) (S i) in
    init_by_array_finish k' mt i
  end.

Definition init_by_array (init_key : list Z) : state :=
  let mt := init_genrand 19650218 in
  let '(mt, i) :=
    init_by_array_mix (Nat.max N (length init_key)) init_key mt 1 0 in
  let mt := init_by_array_finish (N - 1) mt i in
  mk (<[0%nat := 0x80000000]> mt) N.

(** The 32-bit words of [abs(seed)], least significant first; one
    word for zero. *)
Fixpoint key_words (fuel : nat) (n : Z) : list Z :=
  match fuel with
  | O => []
  | S fuel' =>
    if n <? 0x100000000 then [n]
    else u32 n :: key_words fuel' (Z.shiftr n 32)
  end.

Definition seed (a : Z) : state :=
  let n := Z.abs a in
  init_by_array (key_words (S (Z.to_nat (Z.log2 n))) n).

Fixpoint twist (k : nat) (kk : nat) (mt : list Z) : list Z :=
  match k with
  | O => mt
  | S k' =>
    let y := Z.lor (Z.land (word mt kk) 0x80000000)
                   (Z.land (word mt ((kk + 1) mod N)) 0x7fffffff) in
    let mag := if Z.testbit y 0 then 0x9908b0df else 0 in
    let v := Z.lxor (Z.lxor (word mt ((kk + M) mod N)) (Z.shiftr y 1)) mag in
    twist k' (S kk) (<[kk := v]> mt)
  end.

Definition genrand_uint32 (g : state) : Z * state :=
  let '(mt, index) :=
    if (N <=? index g)%nat then (twist N 0 (mt g), O) else (mt g, index g) in
  let y := word mt index in
  let y := Z.lxor y (Z.shiftr y 11) in
  let y := Z.lxor y (Z.land (Z.shiftl y 7) 0x9d2c5680) in
  let y := Z.lxor y (Z.land (Z.shiftl y 15) 0xefc60000) in
  let y := Z.lxor y (Z.shiftr y 18) in
  (u32 y, mk mt (S index)).

(** [random()]: 53 random bits over [2^53]. *)
Definition random (g : state) : float * state :=
  let '(a, g) := genrand_uint32 g in
  let '(b, g) := genrand_uint32 g in
  let a := Z.shiftr a 5 in
  let b := Z.shiftr b 6 in
  (PrimFloat.div (PrimFloat.of_uint63 (Uint63.of_Z (a * 67108864 + b)))
                 (PrimFloat.of_uint63 (Uint63.of_Z 9007199254740992)), g).

(** [getrandbits(k)] for [k > 0]: whole words first, least
    significant first, then the top bits of one more word. *)
Fixpoint getrandbits_words (words : nat) (k : Z) (g : state) : Z * state :=
  match words with
  | O => (0, g)
  | S words' =>
    let '(r, g) := genrand_uint32 g in
    let r := if k <? 32 then Z.shiftr r (32 - k) else r in
    let '(hi, g) := getrandbits_words words' (k - 32) g in
    (Z.lor r (Z.shiftl hi 32), g)
  end.

Definition getrandbits (g : state) (k : Z) : Z * state :=
  getrandbits_words (Z.to_nat ((k - 1) / 32 + 1)) k g.

(** The rejection loop [while r >= n: r = getrandbits(k)], which
    [fuel] bounds in the model. *)
Fixpoint randbelow_loop (fuel : nat) (g : state) (n k : Z) : Z * state :=
  match fuel with
  | O => (0, g)
  | S fuel' =>
    let '(r, g) := getrandbits g k in
    if (0 <=? r) && (r <? n) then (r, g) else randbelow_loop fuel' g n k
  end.

Definition randbelow (g : state) (n : Z) : Z * state :=
  if n <=? 0 then (0, g) else randbelow_loop 4096 g n (Z.log2 n + 1).

Lemma randbelow_loop_range fuel g n k :
  0 < n -> 0 <= (randbelow_loop fuel g n k).1 < n.
Proof.
  intros Hn. revert g. induction fuel as [|fuel IH]; intros g; simpl.
  - lia.
  - destruct (getrandbits g k) as [r g'].
    destruct ((0 <=? r) && (r <? n)) eqn:E.
    + simpl. apply andb_true_iff in E. lia.
    + apply IH.
Qed.

Lemma randbelow_range g n : 0 < n -> 0 <= (randbelow g n).1 < n.
Proof.
  intros Hn. unfold randbelow.
  destruct (n <=? 0) eqn:E; [lia|]. by apply randbelow_loop_range.
Qed.

End MT19937.

(** [int(s, 16)] on a string of hexadecimal digits, which every
    prefix of a [uuid4().hex] is. *)
Definition hex_digit (c : ascii) : option Z :=
  let n := Z.of_nat (nat_of_ascii c) in
  if (48 <=? n) && (n <=? 57) then Some (n - 48)
  else if (97 <=? n) && (n <=? 102) then Some (n - 87)
  else if (65 <=? n) && (n <=? 70) then Some (n - 55)
  else None.

Fixpoint int16_digits (acc : Z) (s : string) : option Z :=
  match s with
  | EmptyString => Some acc
  | String c s' => d ← hex_digit c; int16_digits (acc * 16 + d) s'
  end.

Definition int16_hex (s : string) : option Z :=
  match s with
  | EmptyString => None
  | _ => int16_digits 0 s
  end.

(** [width] lowercase hexadecimal digits of [z]. *)
Fixpoint hex (width : nat) (z : Z) : string :=
  match width with
  | O => EmptyString
  | S w =>
    let d := Z.to_nat (Z.shiftr z (4 * Z.of_nat w) mod 16) in
    String (ascii_of_nat (if (d <? 10)%nat then d + 48 else d + 87)) (hex w z)
  end.

(** One possible run of [uuid.uuid4().hex]: the [k]-th identifier has
    [k + 1] in its first 32 bits, version 4 and the RFC 4122 variant. *)
Definition uuid4_hex_run (k : nat) : string :=
  hex 8 (Z.of_nat k + 1) +:+ "000040008000000000000000".

Lemma hex_length w z : String.length (hex w z) = w.
Proof. induction w as [|w IH]; simpl; [done | by rewrite IH]. Qed.

Lemma substring_prefix (a b : string) :
  substring 0 (String.length a) (a +:+ b) = a.
Proof.
  induction a as [|c a IH]; simpl.
  - by destruct b.
  - by rewrite IH.
Qed.
Lemma hex_digit_of_nibble (d : nat) :
  (d < 16)%nat ->
  is_Some (hex_digit (ascii_of_nat (if (d <? 10)%nat then d + 48 else d + 87))).
Proof.
  intros Hd. do 16 (destruct d as [|d]; [vm_compute; by eexists|]). lia.
Qed.

Lemma hex_S w z :
  hex (S w) z =
  String (ascii_of_nat
            (let d := Z.to_nat (Z.shiftr z (4 * Z.of_nat w) mod 16) in
             if (d <? 10)%nat then d + 48 else d + 87)) (hex w z).
Proof. reflexivity. Qed.

Lemma int16_digits_hex w z acc : is_Some (int16_digits acc (hex w z)).
Proof.
  revert acc. induction w as [|w IH]; intros acc; [by eexists|].
  rewrite hex_S. cbv zeta.
  set (d := Z.to_nat (Z.shiftr z (4 * Z.of_nat w) mod 16)).
  assert (Hd : (d < 16)%nat).
  { subst d. pose proof (Z.mod_pos_bound (Z.shiftr z (4 * Z.of_nat w)) 16). lia. }
  destruct (hex_digit_of_nibble d Hd) as [v Hv].
  cbn [int16_digits]. rewrite Hv. apply IH.
Qed.

Lemma uuid4_hex_run_nonempty k : uuid4_hex_run k <> "".
Proof. unfold uuid4_hex_run. rewrite hex_S. discriminate. Qed.

Lemma uuid4_hex_run_int16 k :
  is_Some (int16_hex (substring 0 8 (uuid4_hex_run k))).
Proof.
  unfold uuid4_hex_run.
  pose proof (substring_prefix (hex 8 (Z.of_nat k + 1))
                "000040008000000000000000") as E.
  rewrite hex_length in E. rewrite E.
  unfold int16_hex. rewrite hex_S. rewrite <- hex_S.
  apply int16_digits_hex.
Qed.

(** CPython with that run of [uuid4]. *)
Definition cpython : PyRuntime := {|
  Rng := MT19937.state;
  Random := MT19937.seed;
  random := MT19937.random;
  randbelow := MT19937.randbelow;
  randbelow_range := MT19937.randbelow_range;
  int16 := int16_hex;
  uuid4_hex := uuid4_hex_run;
  uuid4_hex_nonempty := uuid4_hex_run_nonempty;
  uuid4_hex_int16 := uuid4_hex_run_int16;
|}.

(** ** Reachable stores

    The stores the process can hold: empty at start, then changed by
    the two endpoints only. *)
Inductive reachable `{py : PyRuntime} : Games -> Prop :=
| reachable_start : reachable ∅
| reachable_new_game fuel games clock u games' view u' :
    reachable games ->
    new_game fuel games clock u = Some (games', view, u') ->
    reachable games'
| reachable_act games request games' r :
    reachable games ->
    act games request = (games', r) ->
    reachable games'.

(** What a session keeps apart from the fields an action works on. *)
Definition same_frame (s s' : GameState.t) : Prop :=
  GameState.id s' = GameState.id s
  /\ GameState.seed s' = GameState.seed s
  /\ GameState.turn s' = GameState.turn s
  /\ GameState.status s' = GameState.status s
  /\ GameState.stations s' = GameState.stations s
  /\ Anomaly.id <$> GameState.anomalies s' = Anomaly.id <$> GameState.anomalies s.

(** The status the rules of [update_status] give a session. *)
Definition status_of (s : GameState.t) : Status :=
  if GameState.hull s <=? 0 then lost
  else if (GOAL_CREDITS <=? GameState.credits s)
          && (GameState.x s =? 0) && (GameState.y s =? 0) then won
  else active.

(** A request with its action name and direction in lower case. *)
Definition lowercase_request (r : ActionRequest.t) : ActionRequest.t :=
  ActionRequest.mk (ActionRequest.game_id r) (lower (ActionRequest.action r))
    (lower <$> ActionRequest.direction r) (ActionRequest.target_id r)
    (ActionRequest.item r).

(** The fields of an anomaly and of a station apart from [id]. *)
Definition anomaly_fields (a : Anomaly.t) :=
  (Anomaly.name a, Anomaly.x a, Anomaly.y a, Anomaly.value a,
   Anomaly.risk a, Anomaly.collected a).

Definition station_fields (s : Station.t) :=
  (Station.name s, Station.x s, Station.y s).

Definition station_pos (s : Station.t) : Z * Z := (Station.x s, Station.y s).

(** A request that buys fuel: [refuel], or [trade] for fuel cells. *)
Definition buys_fuel (request : ActionRequest.t) : Prop :=
  lower (ActionRequest.action request) = "refuel"
  \/ (lower (ActionRequest.action request) = "trade"
      /\ ActionRequest.item request = Some "fuel_cell").

Definition fuel_gain (request : ActionRequest.t) : Z :=
  if decide (lower (ActionRequest.action request) = "refuel") then 3 else 2.

(** ** Two recorded runs on CPython

    Both start a process, create one session and play it.  The clock
    readings are whole seconds, [1700000005.0] and [1700001078.0],
    whose hashes, the integers [random.Random] is seeded with, are
    [1700000005] and [1700001078]; the session seeds drawn from them
    are [405942] and [634708].  The sessions are kept as the values
    the model computes. *)

(** The session a step of a run leaves, [lost] and empty if there is
    none. *)
Definition session_of (r : option (GameState.t * nat)) : GameState.t :=
  default (GameState.mk "" 0 0 0 0 0 0 0 lost [] [] [] None) (fst <$> r).

(** The identifier of the first session of a process on [cpython]. *)
Definition first_id : string := "00000001000040008000000000000000".

(** The store that holds the first session only. *)
Definition store (state : GameState.t) : Games := {[first_id := state]}.

Definition travel_east : ActionRequest.t :=
  ActionRequest.mk first_id "travel" (Some "e") None None.

Definition salvage (target : string) : ActionRequest.t :=
  ActionRequest.mk first_id "salvage" None (Some target) None.

Definition refuel : ActionRequest.t :=
  ActionRequest.mk first_id "refuel" None None None.

(** First run: one move east, into an ambush, onto the tile of the
    anomaly [0000000a...]. *)
Definition ambush_state0 : GameState.t :=
  Eval vm_compute in
  session_of (new_session (py:=cpython) 64 (MT19937.seed 1700000005) 0).
Definition ambush_state1 : GameState.t :=
  Eval vm_compute in
  (act_session (py:=cpython) travel_east ambush_state0).1.
Definition ambush_games0 : Games := store ambush_state0.
Definition ambush_games1 : Games := store ambush_state1.

(** Second run: the four anomalies of the base tile, worth 115 credits
    together, salvaged one after the other. *)
Definition win_state0 : GameState.t :=
  Eval vm_compute in
  session_of (new_session (py:=cpython) 64 (MT19937.seed 1700001078) 0).
Definition win_state1 : GameState.t :=
  Eval vm_compute in
  (act_session (py:=cpython)
     (salvage "00000006000040008000000000000000") win_state0).1.
Definition win_state2 : GameState.t :=
  Eval vm_compute in
  (act_session (py:=cpython)
     (salvage "00000008000040008000000000000000") win_state1).1.
Definition win_state3 : GameState.t :=
  Eval vm_compute in
  (act_session (py:=cpython)
     (salvage "00000009000040008000000000000000") win_state2).1.
Definition win_state4 : GameState.t :=
  Eval vm_compute in
  (act_session (py:=cpython)
     (salvage "0000000a000040008000000000000000") win_state3).1.
Definition win_games0 : Games := store win_state0.
Definition win_games3 : Games := store win_state3.
Definition win_games4 : Games := store win_state4.

(** The identifier of the first element of a generated list. *)
Definition first_anomaly_id (anomalies : list Anomaly.t) : string :=
  match anomalies with
  | a :: _ => Anomaly.id a
  | [] => EmptyString
  end.

Definition first_station_id (stations : option (list Station.t)) : string :=
  match stations with
  | Some (s :: _) => Station.id s
  | _ => EmptyString
  end.

Section Properties.
Context `{py : PyRuntime}.

Ltac unfold_act :=
  cbv [act_dispatch act_scan act_travel act_salvage act_trade act_refuel
       act_repair act_fight act_bribe act_evade bad_request log_append
       mbind mret M_bind M_ret get modify raise].

Ltac unfold_act_in H :=
  cbv [act_dispatch act_scan act_travel act_salvage act_trade act_refuel
       act_repair act_fight act_bribe act_evade bad_request log_append
       mbind mret M_bind M_ret get modify raise] in H.

Lemma find_insert_ids (l : list Anomaly.t) target i a b :
  list_find (fun a => Anomaly.id a = target) l = Some (i, a) ->
  Anomaly.id <$> <[i := Anomaly.set_collected b a]> l = Anomaly.id <$> l.
Proof.
  intros Hf. apply list_find_Some in Hf as (Hi & _ & _).
  rewrite list_fmap_insert. apply list_insert_id.
  by rewrite list_lookup_fmap, Hi.
Qed.

(** An identifier as [uuid4().hex] makes them. *)
Definition id_ok (t : string) : Prop :=
  t <> "" /\ is_Some (int16 (substring 0 8 t)).

(** What every branch of the resolver does to the session object: an
    exception leaves it as it was, and a normal return keeps the frame,
    appends one or two log entries and keeps the fuel within bounds. *)
Definition branch_spec {A} (m : M A) : Prop :=
  forall s s' r, m s = (s', r) ->
  match r with
  | Raise e =>
    s' = s
    /\ ((exists detail, e = HTTPException 400 detail)
        \/ (e = ValueError
            /\ ~ Forall id_ok (Anomaly.id <$> GameState.anomalies s)))
  | Return _ =>
    same_frame s s'
    /\ (exists new, GameState.log s' = GameState.log s ++ new
                    /\ (1 <= length new <= 2)%nat)
    /\ (0 <= GameState.fuel s <= MAX_FUEL ->
        0 <= GameState.fuel s' <= MAX_FUEL)
  end.

Ltac log_entries :=
  rewrite <- ?app_assoc; eexists; (split; [reflexivity | simpl; lia]).

Ltac branch_leaf :=
  simplify_eq; cbn;
  first
    [ split; [reflexivity | left; eexists; reflexivity]
    | split; [repeat split; done | split; [log_entries |]] ].

Lemma act_scan_spec : branch_spec act_scan.
Proof.
  intros s s' r Hrun. unfold_act_in Hrun.
  repeat case_match; branch_leaf; done.
Qed.

Lemma act_travel_spec request rng : branch_spec (act_travel request rng).
Proof.
  intros s s' r Hrun. unfold_act_in Hrun.
  repeat case_match; branch_leaf; unfold MAX_FUEL; lia.
Qed.

Lemma find_id_ok (l : list Anomaly.t) target i a :
  list_find (fun a => Anomaly.id a = target) l = Some (i, a) ->
  Forall id_ok (Anomaly.id <$> l) ->
  id_ok target.
Proof.
  intros Hf Hall. apply list_find_Some in Hf as (Hi & <- & _).
  rewrite Forall_forall in Hall. apply Hall.
  apply list_elem_of_fmap. exists a. split; [done|].
  by eapply list_elem_of_lookup_2.
Qed.

Lemma act_salvage_spec request : branch_spec (act_salvage request).
Proof.
  intros s s' r Hrun. unfold_act_in Hrun.
  repeat case_match; simplify_eq; cbn;
    try (split; [reflexivity | left; eexists; reflexivity]);
    try (split; [repeat split; try done; by eapply find_insert_ids
                | split; [log_entries | done] ]).
  split; [done | right; split; [done |]].
  intros Hall.
  match goal with
  | Hf : list_find _ _ = Some _ |- _ =>
    destruct (find_id_ok _ _ _ _ Hf Hall) as [_ [k Hk]]
  end.
  congruence.
Qed.

Lemma act_trade_spec request : branch_spec (act_trade request).
Proof.
  intros s s' r Hrun. unfold_act_in Hrun.
  repeat case_match; branch_leaf; unfold MAX_FUEL; lia.
Qed.

Lemma act_refuel_spec : branch_spec act_refuel.
Proof.
  intros s s' r Hrun. unfold_act_in Hrun.
  repeat case_match; branch_leaf; unfold MAX_FUEL; lia.
Qed.

Lemma act_repair_spec : branch_spec act_repair.
Proof.
  intros s s' r Hrun. unfold_act_in Hrun.
  repeat case_match; branch_leaf; done.
Qed.

Lemma act_fight_spec rng : branch_spec (act_fight rng).
Proof.
  intros s s' r Hrun. unfold_act_in Hrun.
  repeat case_match; branch_leaf; done.
Qed.

Lemma act_bribe_spec : branch_spec act_bribe.
Proof.
  intros s s' r Hrun. unfold_act_in Hrun.
  repeat case_match; branch_leaf; done.
Qed.

Lemma act_evade_spec rng : branch_spec (act_evade rng).
Proof.
  intros s s' r Hrun. unfold_act_in Hrun.
  repeat case_match; branch_leaf; unfold MAX_FUEL; lia.
Qed.

(** A branch followed by [nearby = None]. *)
Lemma branch_then_None (m : M unit) :
  branch_spec m -> branch_spec (m;; mret (@None (list Nearby.t))).
Proof.
  intros Hm s s' r Hrun. cbv [mbind mret M_bind M_ret] in Hrun.
  destruct (m s) as [s1 [[]|e]] eqn:E; simplify_eq; exact (Hm _ _ _ E).
Qed.

Lemma act_dispatch_spec request action rng :
  branch_spec (act_dispatch request action rng).
Proof.
  unfold act_dispatch.
  repeat case_decide;
    try (apply branch_then_None;
         auto using act_travel_spec, act_salvage_spec, act_trade_spec,
           act_refuel_spec, act_repair_spec, act_fight_spec, act_bribe_spec,
           act_evade_spec).
  - intros s s' r Hrun. cbv [mbind mret M_bind M_ret] in Hrun.
    destruct (act_scan s) as [s1 [l|e]] eqn:E; simplify_eq;
      exact (act_scan_spec _ _ _ E).
  - intros s s' r Hrun. cbv [bad_request raise] in Hrun. simplify_eq.
    split; [done | left; by eexists].
Qed.

(** *** The resolver on one session *)

Lemma act_session_terminal request s :
  GameState.status s <> active ->
  act_session request s = (s, Return (public_state s None)).
Proof.
  intros Hs. cbv [act_session mbind mret M_bind M_ret get].
  by rewrite bool_decide_eq_false_2.
Qed.

Definition finish (s : GameState.t) : GameState.t :=
  update_status (GameState.set_turn (GameState.turn s + 1) s).

Lemma act_session_active request s :
  GameState.status s = active ->
  act_session request s =
    if bool_decide (is_Some (GameState.pending_event s))
       && negb (bool_decide (lower (ActionRequest.action request)
                             ∈ ["fight"; "bribe"; "evade"]))
    then (s, Raise (HTTPException 400 "Resolve the ambush first"))
    else
      match act_dispatch request (lower (ActionRequest.action request))
                         (action_rng s) s with
      | (s1, Return nearby) => (finish s1, Return (public_state (finish s1) nearby))
      | (s1, Raise e) => (s1, Raise e)
      end.
Proof.
  intros Hs.
  cbv [act_session mbind mret M_bind M_ret get modify bad_request raise finish].
  rewrite bool_decide_eq_true_2 by done. cbn [negb].
  destruct (_ && _); [done|].
  by destruct (act_dispatch _ _ _ s) as [s1 [nearby|e]].
Qed.

Lemma act_found games request state :
  games !! ActionRequest.game_id request = Some state ->
  act games request =
    (<[ActionRequest.game_id request := (act_session request state).1]> games,
     (act_session request state).2).
Proof. intros Hg. unfold act. rewrite Hg. by destruct (act_session _ _). Qed.

Lemma status_of_update_status s :
  GameState.status (update_status s) = status_of s.
Proof. unfold update_status, status_of. by repeat case_match. Qed.

Lemma status_of_finish s : GameState.status (finish s) = status_of (finish s).
Proof.
  unfold finish. rewrite status_of_update_status.
  destruct s. unfold status_of, update_status. cbn.
  repeat case_match; cbn in *; congruence.
Qed.

Lemma finish_frame s :
  GameState.id (finish s) = GameState.id s
  /\ GameState.turn (finish s) = GameState.turn s + 1
  /\ GameState.x (finish s) = GameState.x s
  /\ GameState.y (finish s) = GameState.y s
  /\ GameState.fuel (finish s) = GameState.fuel s
  /\ GameState.hull (finish s) = GameState.hull s
  /\ GameState.credits (finish s) = GameState.credits s
  /\ GameState.log (finish s) = GameState.log s
  /\ GameState.anomalies (finish s) = GameState.anomalies s
  /\ GameState.stations (finish s) = GameState.stations s
  /\ GameState.pending_event (finish s) = GameState.pending_event s.
Proof. unfold finish, update_status. by repeat case_match. Qed.

(** *** The invariant of the sessions of a reachable store *)

Definition session_inv (s : GameState.t) : Prop :=
  0 <= GameState.fuel s <= MAX_FUEL
  /\ Forall id_ok (Anomaly.id <$> GameState.anomalies s).

Lemma act_session_inv request s :
  session_inv s -> session_inv (act_session request s).1.
Proof.
  intros [Hfuel Hids].
  destruct (decide (GameState.status s = active)) as [Ha|Ha];
    [|by rewrite act_session_terminal].
  rewrite act_session_active by done.
  destruct (_ && _); [done|].
  destruct (act_dispatch _ _ _ s) as [s1 [nearby|e]] eqn:E;
    pose proof (act_dispatch_spec _ _ _ _ _ _ E) as Hspec; cbn in Hspec.
  - destruct Hspec as ((_ & _ & _ & _ & _ & Hi) & _ & Hf).
    destruct (finish_frame s1) as (_ & _ & _ & _ & Ef & _ & _ & _ & Ea & _).
    split; cbn; [rewrite Ef; auto | rewrite Ea, Hi; done].
  - destruct Hspec as [-> _]. done.
Qed.

Lemma generate_anomalies_loop_ids k rng u acc :
  Forall id_ok (Anomaly.id <$> acc) ->
  Forall id_ok (Anomaly.id <$> (generate_anomalies_loop k rng u acc).1).
Proof.
  revert rng u acc. induction k as [|k IH]; intros rng u acc Hacc; [done|].
  cbn [generate_anomalies_loop]. repeat case_match. apply IH.
  rewrite fmap_app. apply Forall_app. split; [done|].
  constructor; [|constructor]. cbn.
  split; [apply uuid4_hex_nonempty | apply uuid4_hex_int16].
Qed.

Lemma new_game_inv fuel games clock u games' view u' :
  new_game fuel games clock u = Some (games', view, u') ->
  (forall k s, games !! k = Some s -> session_inv s) ->
  forall k s, games' !! k = Some s -> session_inv s.
Proof.
  unfold new_game, new_session. intros Hnew Hall k s Hk.
  destruct (randint clock 1 999999) as [seed rng].
  destruct (generate_anomalies seed (S u)) as [anomalies u1] eqn:Ea.
  destruct (generate_stations fuel seed u1) as [[stations u2]|]; simplify_eq/=.
  destruct (decide (uuid4_hex u = k)) as [Ek|Hne].
  - subst k. rewrite lookup_insert_eq in Hk. simplify_eq. split; cbn.
    + unfold MAX_FUEL. lia.
    + replace anomalies with (generate_anomalies seed (S u)).1 by by rewrite Ea.
      apply generate_anomalies_loop_ids. constructor.
  - rewrite lookup_insert_ne in Hk by done. eauto.
Qed.

Lemma reachable_inv games :
  reachable games -> forall k s, games !! k = Some s -> session_inv s.
Proof.
  induction 1 as [|fuel games clock u games' view u' _ IH Hnew
                  |games request games' r _ IH Hact]; intros k s Hk.
  - by rewrite lookup_empty in Hk.
  - eauto using new_game_inv.
  - unfold act in Hact.
    destruct (games !! ActionRequest.game_id request) as [state|] eqn:Hg;
      [|simplify_eq; eauto].
    destruct (act_session request state) as [state' r'] eqn:Hs. simplify_eq.
    destruct (decide (ActionRequest.game_id request = k)) as [Ek|Hne].
    + subst k. rewrite lookup_insert_eq in Hk. simplify_eq.
      replace s with (act_session request state).1 by by rewrite Hs.
      eauto using act_session_inv.
    + rewrite lookup_insert_ne in Hk by done. eauto.
Qed.

(** The two outcomes of [act] on an active session of a reachable
    store. *)
Lemma act_active games request state :
  reachable games ->
  games !! ActionRequest.game_id request = Some state ->
  GameState.status state = active ->
  (exists s1 nearby,
      act_dispatch request (lower (ActionRequest.action request))
                   (action_rng state) state = (s1, Return nearby)
      /\ (GameState.pending_event state = None
          \/ lower (ActionRequest.action request) ∈ ["fight"; "bribe"; "evade"])
      /\ act games request
         = (<[ActionRequest.game_id request := finish s1]> games,
            Return (public_state (finish s1) nearby)))
  \/ (exists detail,
        act games request = (games, Raise (HTTPException 400 detail))).
Proof.
  intros Hreach Hg Ha.
  destruct (reachable_inv _ Hreach _ _ Hg) as [_ Hids].
  rewrite (act_found _ _ _ Hg), act_session_active by done.
  destruct (_ && _) eqn:Egate.
  { right. eexists. cbn. by rewrite insert_id. }
  destruct (act_dispatch _ _ _ state) as [s1 [nearby|e]] eqn:E;
    pose proof (act_dispatch_spec _ _ _ _ _ _ E) as Hspec; cbn in Hspec.
  - left. exists s1, nearby. split_and!; [done| |done].
    apply andb_false_iff in Egate as [Eg|Eg].
    + left. apply bool_decide_eq_false in Eg.
      destruct (GameState.pending_event state); [|done].
      destruct Eg. eauto.
    + right. apply negb_false_iff, bool_decide_eq_true in Eg. done.
  - right. destruct Hspec as [-> [[detail ->]|[_ Hbad]]]; [|done].
    exists detail. cbn. by rewrite insert_id.
Qed.

(** A process that has created one session and nothing else. *)
Lemma reachable_new_session fuel clock state u' :
  new_session fuel clock 0 = Some (state, u') ->
  reachable {[GameState.id state := state]}.
Proof.
  intros Hnew.
  apply (reachable_new_game fuel ∅ clock 0%nat _ (public_state state None) u');
    [constructor|].
  unfold new_game. by rewrite Hnew.
Qed.

(** [act] on the store of one session. *)
Lemma act_singleton request state :
  act {[ActionRequest.game_id request := state]} request
  = ({[ActionRequest.game_id request := (act_session request state).1]},
     (act_session request state).2).
Proof.
  rewrite (act_found _ _ state) by apply lookup_singleton_eq.
  by rewrite insert_singleton_eq.
Qed.

(** *** Properties of [act] *)

(** C1 (amended). On a session of a reachable store whose status is
    active, [act] is atomic: either the turn counter increases by
    exactly 1, one or two log entries are appended (a second one when a
    travel ends in an ambush or a salvage dents the hull), the status
    is recomputed and the view of the new state is returned, or the
    request fails with a validation error (HTTP 400) and the store,
    hence every field of the session, is unchanged. *)
Theorem act_atomic games request state :
  reachable games ->
  games !! ActionRequest.game_id request = Some state ->
  GameState.status state = active ->
  (exists state' nearby new,
      act games request
      = (<[ActionRequest.game_id request := state']> games,
         Return (public_state state' nearby))
      /\ GameState.turn state' = GameState.turn state + 1
      /\ GameState.log state' = GameState.log state ++ new
      /\ (1 <= length new <= 2)%nat
      /\ GameState.status state' = status_of state')
  \/ (exists detail,
        act games request = (games, Raise (HTTPException 400 detail))).
Proof.
  intros Hreach Hg Ha.
  destruct (act_active _ _ _ Hreach Hg Ha)
    as [(s1 & nearby & Hrun & _ & Hact)|?]; [left|by right].
  destruct (act_dispatch_spec _ _ _ _ _ _ Hrun)
    as ((_ & _ & Ht & _) & (new & Hl & Hn) & _).
  destruct (finish_frame s1) as (_ & Et & _ & _ & _ & _ & _ & El & _).
  exists (finish s1), nearby, new.
  rewrite Et, El, Ht, Hl. auto using status_of_finish.
Qed.

(** C2. On a session whose status is won or lost, [act] returns the
    view of the session as it is, whatever the request says, raises
    nothing and leaves the store, hence every field of the session,
    unchanged. *)
Theorem act_terminal_noop games request state :
  games !! ActionRequest.game_id request = Some state ->
  GameState.status state = won \/ GameState.status state = lost ->
  act games request = (games, Return (public_state state None)).
Proof.
  intros Hg Hs.
  rewrite (act_found _ _ _ Hg), act_session_terminal; cbn.
  - by rewrite insert_id.
  - destruct Hs as [-> | ->]; discriminate.
Qed.

(** C4. After an action that [act] resolves on an active session, the
    status of the session, also as the view shows it, is lost exactly
    when the hull is at or below 0; otherwise won exactly when the
    credits are at least 120 and the ship is at (0,0); otherwise
    active. *)
Theorem act_status_recomputed games request state games' view :
  games !! ActionRequest.game_id request = Some state ->
  GameState.status state = active ->
  act games request = (games', Return view) ->
  exists state',
    games' !! ActionRequest.game_id request = Some state'
    /\ PublicState.status view = GameState.status state'
    /\ (GameState.status state' = lost <-> GameState.hull state' <= 0)
    /\ (GameState.status state' = won <->
        0 < GameState.hull state' /\ GOAL_CREDITS <= GameState.credits state'
        /\ GameState.x state' = 0 /\ GameState.y state' = 0)
    /\ (GameState.status state' = active <->
        0 < GameState.hull state'
        /\ ~ (GOAL_CREDITS <= GameState.credits state'
              /\ GameState.x state' = 0 /\ GameState.y state' = 0)).
Proof.
  intros Hg Ha Hact.
  rewrite (act_found _ _ _ Hg), act_session_active in Hact by done.
  destruct (_ && _); [simplify_eq/=|].
  destruct (act_dispatch _ _ _ state) as [s1 [nearby|e]]; simplify_eq/=.
  exists (finish s1). rewrite lookup_insert_eq. split; [done|].
  split; [done|]. rewrite status_of_finish. unfold status_of.
  destruct (GameState.hull (finish s1) <=? 0) eqn:Eh;
    [|destruct (_ && _ && _) eqn:Ew];
    repeat split; intros; try discriminate; try lia.
Qed.

Lemma act_dispatch_fight request rng :
  act_dispatch request "fight" rng = (act_fight rng;; mret None).
Proof. reflexivity. Qed.

Lemma act_dispatch_bribe request rng :
  act_dispatch request "bribe" rng = (act_bribe;; mret None).
Proof. reflexivity. Qed.

Lemma act_dispatch_evade request rng :
  act_dispatch request "evade" rng = (act_evade rng;; mret None).
Proof. reflexivity. Qed.

Lemma resolution_clears_event request action rng s s1 nearby :
  action ∈ ["fight"; "bribe"; "evade"] ->
  act_dispatch request action rng s = (s1, Return nearby) ->
  GameState.pending_event s1 = None.
Proof.
  intros Hin Hrun.
  repeat (apply elem_of_cons in Hin as [->|Hin]);
    [| | |by apply elem_of_nil in Hin];
    rewrite ?act_dispatch_fight, ?act_dispatch_bribe, ?act_dispatch_evade
      in Hrun;
    unfold_act_in Hrun; repeat case_match; simplify_eq; done.
Qed.

(** C5. On an active session with a pending event, every action other
    than fight, bribe and evade (the action name is compared after
    lower-casing) is rejected with a validation error and the store is
    unchanged; and when fight, bribe or evade resolves, the session has
    no pending event, whatever the roll gave. *)
Theorem pending_event_exclusive games request state event :
  games !! ActionRequest.game_id request = Some state ->
  GameState.status state = active ->
  GameState.pending_event state = Some event ->
  (lower (ActionRequest.action request) ∉ ["fight"; "bribe"; "evade"] ->
   act games request
   = (games, Raise (HTTPException 400 "Resolve the ambush first")))
  /\ (lower (ActionRequest.action request) ∈ ["fight"; "bribe"; "evade"] ->
      forall games' view,
        act games request = (games', Return view) ->
        exists state',
          games' !! ActionRequest.game_id request = Some state'
          /\ GameState.pending_event state' = None
          /\ PublicState.pendingEvent view = None).
Proof.
  intros Hg Ha Hp.
  rewrite (act_found _ _ _ Hg), act_session_active by done. rewrite Hp.
  rewrite (bool_decide_eq_true_2 (is_Some (Some event))) by eauto.
  split.
  - intros Hno. rewrite bool_decide_eq_false_2 by done. cbn.
    by rewrite insert_id.
  - intros Hin games' view Hact. rewrite bool_decide_eq_true_2 in Hact by done.
    cbn [negb andb] in Hact.
    destruct (act_dispatch _ _ _ state) as [s1 [nearby|e]] eqn:E;
      simplify_eq/=.
    exists (finish s1). rewrite lookup_insert_eq.
    destruct (finish_frame s1) as (_&_&_&_&_&_&_&_&_&_&Ep).
    rewrite Ep. erewrite resolution_clears_event by done. done.
Qed.

(** *** Travel *)

Ltac case_match_hyp :=
  match goal with
  | H : context [match ?x with _ => _ end] |- _ => destruct x eqn:?
  end.

Lemma act_dispatch_travel request rng :
  act_dispatch request "travel" rng = (act_travel request rng;; mret None).
Proof. reflexivity. Qed.

Lemma act_travel_Return request rng s s1 :
  act_travel request rng s = (s1, Return ()) ->
  (GameState.x s1, GameState.y s1) <> (GameState.x s, GameState.y s)
  /\ 0 < GameState.fuel s
  /\ GameState.fuel s1 = GameState.fuel s - 1
  /\ GameState.hull s1
     = (if ((random rng).1 <? 0.15)%float then GameState.hull s - 1
        else GameState.hull s)
  /\ GameState.pending_event s1
     = (if ((random (random rng).2).1 <? 0.2)%float
        then Some (PendingEvent.mk "pirate_ambush"
                     (randint (random (random rng).2).2 1 3).1)
        else GameState.pending_event s).
Proof.
  intros Hrun. unfold_act_in Hrun.
  repeat case_match_hyp; simplify_eq; cbn;
    repeat (match goal with
            | Heq : random _ = _ |- _ => rewrite Heq
            | Heq : randint _ _ _ = _ |- _ => rewrite Heq
            | Heq : PrimFloat.ltb _ _ = _ |- _ => rewrite Heq
            end; cbn);
    (split; [intros [=]; lia | split; [lia | done]]).
Qed.

(** C9. The hazard roll and the ambush roll of a travel that resolves
    are the first two draws of the generator seeded with the session
    seed, the turn and the position of the ship before the move: the
    ship has moved when they are drawn, and the tile it left, not the
    one it reached, is in the seed. *)
Theorem travel_rolls_seeded_at_origin games request state games' view :
  games !! ActionRequest.game_id request = Some state ->
  GameState.status state = active ->
  lower (ActionRequest.action request) = "travel" ->
  act games request = (games', Return view) ->
  let rng := Random (GameState.seed state + GameState.turn state * 31
                     + GameState.x state * 13 + GameState.y state * 7) in
  let hazard := random rng in
  let ambush := random hazard.2 in
  exists state',
    games' !! ActionRequest.game_id request = Some state'
    /\ (GameState.x state', GameState.y state')
       <> (GameState.x state, GameState.y state)
    /\ GameState.hull state'
       = (if (hazard.1 <? 0.15)%float then GameState.hull state - 1
          else GameState.hull state)
    /\ GameState.pending_event state'
       = (if (ambush.1 <? 0.2)%float
          then Some (PendingEvent.mk "pirate_ambush" (randint ambush.2 1 3).1)
          else None).
Proof.
  intros Hg Ha Htravel Hact rng hazard ambush. subst rng hazard ambush.
  rewrite (act_found _ _ _ Hg), act_session_active in Hact by done.
  rewrite Htravel in Hact.
  rewrite (bool_decide_eq_false_2 ("travel" ∈ _)) in Hact
    by (intros Hin; repeat (apply elem_of_cons in Hin as [?|Hin]; [done|]);
        by apply elem_of_nil in Hin).
  destruct (GameState.pending_event state) as [event|] eqn:Hp.
  { rewrite bool_decide_eq_true_2 in Hact by eauto. done. }
  rewrite bool_decide_eq_false_2 in Hact by (by intros [? ?]).
  cbn [andb] in Hact. rewrite act_dispatch_travel in Hact.
  unfold action_rng in Hact.
  cbv [mbind mret M_bind M_ret] in Hact.
  destruct (act_travel _ _ state) as [s1 [[]|e]] eqn:E; simplify_eq/=.
  exists (finish s1). rewrite lookup_insert_eq. split; [done|].
  destruct (finish_frame s1) as (_&_&->&->&_&->&_&_&_&_&->).
  apply act_travel_Return in E as (Hpos & _ & _ & Hh & He).
  by rewrite Hp in He.
Qed.


(** *** Salvage *)

Lemma act_dispatch_salvage request rng :
  act_dispatch request "salvage" rng = (act_salvage request;; mret None).
Proof. reflexivity. Qed.

Lemma act_salvage_Return request s target i anomaly k :
  ActionRequest.target_id request = Some target ->
  target <> "" ->
  list_find (fun a => Anomaly.id a = target) (GameState.anomalies s)
  = Some (i, anomaly) ->
  Anomaly.collected anomaly = false ->
  Anomaly.x anomaly = GameState.x s ->
  Anomaly.y anomaly = GameState.y s ->
  int16 (substring 0 8 target) = Some k ->
  exists s1,
    act_salvage request s = (s1, Return ())
    /\ GameState.credits s1 = GameState.credits s + Anomaly.value anomaly
    /\ GameState.anomalies s1
       = <[i := Anomaly.set_collected true anomaly]> (GameState.anomalies s)
    /\ GameState.hull s1
       = (if ((random (Random (GameState.seed s + k))).1
              <? float_of_Z (Anomaly.risk anomaly) * 0.15)%float
          then GameState.hull s - 1 else GameState.hull s)
    /\ GameState.pending_event s1 = GameState.pending_event s
    /\ GameState.x s1 = GameState.x s /\ GameState.y s1 = GameState.y s.
Proof.
  intros Ht Hne Hf Hc Hx Hy Hk. unfold act_salvage. rewrite Ht.
  destruct target as [|c t]; [done|].
  cbv [mbind M_bind get]. rewrite Hf, Hc, Hx, Hy, !Z.eqb_refl. cbn [negb orb].
  rewrite Hk.
  destruct (_ <? _)%float;
    cbv [mbind mret M_bind M_ret modify log_append];
    eexists; (split; [reflexivity | done]).
Qed.

Lemma act_salvage_again request s target i anomaly :
  ActionRequest.target_id request = Some target ->
  target <> "" ->
  list_find (fun a => Anomaly.id a = target) (GameState.anomalies s)
  = Some (i, anomaly) ->
  Anomaly.collected anomaly = true ->
  act_salvage request s
  = (s, Raise (HTTPException 400 "Invalid salvage target")).
Proof.
  intros Ht Hne Hf Hc. unfold act_salvage. rewrite Ht.
  destruct target as [|c t]; [done|].
  cbv [mbind M_bind get]. by rewrite Hf, Hc.
Qed.

Lemma find_after_collect (l : list Anomaly.t) target i a :
  list_find (fun a => Anomaly.id a = target) l = Some (i, a) ->
  list_find (fun a => Anomaly.id a = target)
            (<[i := Anomaly.set_collected true a]> l)
  = Some (i, Anomaly.set_collected true a).
Proof.
  intros Hf. apply list_find_Some in Hf as (Hi & Hid & Hfirst).
  apply list_find_insert_Some. right; left.
  split_and!; [done..|by eapply lookup_lt_Some|done|done].
Qed.

(** C6 (amended). On an active session of a reachable store with no
    pending event, salvaging the anomaly the target id names, when it
    is uncollected and at the position of the ship, adds exactly the
    value of the anomaly to the credits, sets its [collected] flag, and
    takes 1 from the hull exactly when the first draw of the generator
    seeded with the session seed plus the number read from the first
    eight characters of the id is below [risk * 0.15].  The same
    request sent again changes nothing: it fails with a validation
    error when the session is still active, and returns the unchanged
    view when the salvage ended the game. *)
Theorem salvage_collects_once games request state target i anomaly :
  reachable games ->
  games !! ActionRequest.game_id request = Some state ->
  GameState.status state = active ->
  GameState.pending_event state = None ->
  lower (ActionRequest.action request) = "salvage" ->
  ActionRequest.target_id request = Some target ->
  list_find (fun a => Anomaly.id a = target) (GameState.anomalies state)
  = Some (i, anomaly) ->
  Anomaly.collected anomaly = false ->
  Anomaly.x anomaly = GameState.x state ->
  Anomaly.y anomaly = GameState.y state ->
  exists k state',
    let games' := <[ActionRequest.game_id request := state']> games in
    int16 (substring 0 8 target) = Some k
    /\ act games request = (games', Return (public_state state' None))
    /\ GameState.credits state'
       = GameState.credits state + Anomaly.value anomaly
    /\ GameState.anomalies state'
       = <[i := Anomaly.set_collected true anomaly]> (GameState.anomalies state)
    /\ GameState.hull state'
       = (if ((random (Random (GameState.seed state + k))).1
              <? float_of_Z (Anomaly.risk anomaly) * 0.15)%float
          then GameState.hull state - 1 else GameState.hull state)
    /\ (GameState.status state' = active ->
        act games' request
        = (games', Raise (HTTPException 400 "Invalid salvage target")))
    /\ (GameState.status state' <> active ->
        act games' request = (games', Return (public_state state' None))).
Proof.
  intros Hreach Hg Ha Hp Hsalvage Ht Hf Hc Hx Hy.
  destruct (reachable_inv _ Hreach _ _ Hg) as [_ Hids].
  destruct (find_id_ok _ _ _ _ Hf Hids) as [Hne [k Hk]].
  destruct (act_salvage_Return _ _ _ _ _ _ Ht Hne Hf Hc Hx Hy Hk)
    as (s1 & Hrun & Hcr & Han & Hh & Hpe & _).
  destruct (finish_frame s1) as (_&_&_&_&_&Eh&Ec&_&Ea&_&Ep).
  exists k, (finish s1). cbn zeta.
  assert (act games request
          = (<[ActionRequest.game_id request := finish s1]> games,
             Return (public_state (finish s1) None))) as Hact.
  { rewrite (act_found _ _ _ Hg), act_session_active by done.
    rewrite Hp, Hsalvage, act_dispatch_salvage.
    rewrite (bool_decide_eq_false_2 (is_Some None)) by (by intros [? ?]).
    cbn [andb]. cbv [mbind mret M_bind M_ret]. by rewrite Hrun. }
  split_and!; [done|done|congruence|congruence|congruence| |].
  - intros Ha'.
    rewrite (act_found _ _ (finish s1)) by apply lookup_insert_eq.
    rewrite act_session_active by done.
    rewrite Ep, Hpe, Hp, Hsalvage, act_dispatch_salvage.
    rewrite (bool_decide_eq_false_2 (is_Some None)) by (by intros [? ?]).
    cbn [andb]. cbv [mbind mret M_bind M_ret].
    rewrite (act_salvage_again request (finish s1) target i
               (Anomaly.set_collected true anomaly) Ht Hne);
      [cbn; by rewrite insert_insert_eq
      |rewrite Ea, Han; by apply find_after_collect
      |done].
  - intros Ha'.
    rewrite (act_found _ _ (finish s1)) by apply lookup_insert_eq.
    rewrite act_session_terminal by done. cbn. by rewrite insert_insert_eq.
Qed.


(** *** Fuel *)

Lemma act_dispatch_refuel request rng :
  act_dispatch request "refuel" rng = (act_refuel;; mret None).
Proof. reflexivity. Qed.

Lemma act_dispatch_trade request rng :
  act_dispatch request "trade" rng = (act_trade request;; mret None).
Proof. reflexivity. Qed.

Lemma dispatch_fuel_use request action rng s s1 nearby :
  action ∈ ["travel"; "evade"] ->
  act_dispatch request action rng s = (s1, Return nearby) ->
  0 < GameState.fuel s /\ GameState.fuel s1 = GameState.fuel s - 1.
Proof.
  intros Hin Hrun.
  repeat (apply elem_of_cons in Hin as [->|Hin]);
    [| |by apply elem_of_nil in Hin].
  - rewrite act_dispatch_travel in Hrun. cbv [mbind mret M_bind M_ret] in Hrun.
    destruct (act_travel request rng s) as [s' [[]|e]] eqn:E; simplify_eq.
    apply act_travel_Return in E. tauto.
  - rewrite act_dispatch_evade in Hrun.
    unfold_act_in Hrun; repeat case_match_hyp; simplify_eq; cbn; lia.
Qed.

Lemma dispatch_fuel_gain request rng s s1 nearby :
  buys_fuel request ->
  act_dispatch request (lower (ActionRequest.action request)) rng s
  = (s1, Return nearby) ->
  GameState.fuel s < MAX_FUEL
  /\ GameState.fuel s1 = Z.min MAX_FUEL (GameState.fuel s + fuel_gain request).
Proof.
  unfold fuel_gain.
  intros [Ea|[Ea Ei]] Hrun; rewrite Ea in Hrun |- *.
  - rewrite decide_True by done. rewrite act_dispatch_refuel in Hrun.
    unfold_act_in Hrun; repeat case_match_hyp; simplify_eq; cbn; lia.
  - rewrite decide_False by done. rewrite act_dispatch_trade in Hrun.
    unfold_act_in Hrun. rewrite Ei in Hrun.
    repeat case_match_hyp; simplify_eq; cbn; lia.
Qed.

(** C7 (amended). In every store reachable from the start of the
    process, the fuel of every session lies in [0, MAX_FUEL].  On an
    active session: a travel or an evade that resolves found fuel above
    0 and took 1; a refuel or a trade for fuel cells that resolves
    found fuel below MAX_FUEL and left the minimum of MAX_FUEL and the
    fuel plus the gain (3 or 2); and at MAX_FUEL a refuel or a trade
    for fuel cells fails with a validation error, the store
    unchanged. *)
Theorem fuel_within_bounds games request state :
  reachable games ->
  games !! ActionRequest.game_id request = Some state ->
  0 <= GameState.fuel state <= MAX_FUEL
  /\ (GameState.status state = active ->
      (forall games' view,
          act games request = (games', Return view) ->
          exists state',
            games' !! ActionRequest.game_id request = Some state'
            /\ (lower (ActionRequest.action request) ∈ ["travel"; "evade"] ->
                0 < GameState.fuel state
                /\ GameState.fuel state' = GameState.fuel state - 1)
            /\ (buys_fuel request ->
                GameState.fuel state < MAX_FUEL
                /\ GameState.fuel state'
                   = Z.min MAX_FUEL (GameState.fuel state + fuel_gain request)))
      /\ (buys_fuel request ->
          GameState.fuel state = MAX_FUEL ->
          exists detail,
            act games request = (games, Raise (HTTPException 400 detail)))).
Proof.
  intros Hreach Hg. split; [by eapply reachable_inv|].
  intros Ha.
  destruct (act_active _ _ _ Hreach Hg Ha)
    as [(s1 & nearby & Hrun & _ & Hact)|[detail Hact]]; rewrite Hact.
  - destruct (finish_frame s1) as (_&_&_&_&Ef&_).
    split.
    + intros games' view [= <- <-]. exists (finish s1).
      rewrite lookup_insert_eq, Ef. split; [done|].
      eauto using dispatch_fuel_use, dispatch_fuel_gain.
    + intros Hbuy Hfull.
      destruct (dispatch_fuel_gain _ _ _ _ _ Hbuy Hrun). lia.
  - split; [done|eauto].
Qed.


(** *** Station generation *)

Lemma occupied_false stations x y :
  occupied stations x y = false -> (x, y) ∉ station_pos <$> stations.
Proof.
  intros Hocc Hin. apply list_elem_of_fmap in Hin as (s & Hs & Hin).
  unfold station_pos in Hs. simplify_eq.
  assert (occupied stations (Station.x s) (Station.y s) = true) as Ht;
    [|congruence].
  apply existsb_exists. exists s. split; [by apply list_elem_of_In|].
  by rewrite !Z.eqb_refl.
Qed.

(** The stations of a valid layout: on the map, off the base tile. *)
Definition station_valid (s : Station.t) : Prop :=
  0 <= Station.x s < MAP_SIZE /\ 0 <= Station.y s < MAP_SIZE
  /\ ~ (Station.x s = 0 /\ Station.y s = 0).

Lemma generate_stations_loop_valid fuel rng u stations result u' :
  Forall station_valid stations ->
  NoDup (station_pos <$> stations) ->
  (length stations <= 3)%nat ->
  generate_stations_loop fuel rng u stations = Some (result, u') ->
  length result = 3%nat /\ Forall station_valid result
  /\ NoDup (station_pos <$> result).
Proof.
  revert rng u stations.
  induction fuel as [|fuel IH]; intros rng u stations Hv Hnd Hlen Hrun;
    cbn [generate_stations_loop] in Hrun;
    destruct (3 <=? length stations)%nat eqn:El;
    try (apply Nat.leb_le in El; simplify_eq; split; [lia | done]);
    [done|].
  apply Nat.leb_gt in El. unfold randrange in Hrun.
  pose proof (randbelow_range rng MAP_SIZE eq_refl) as Hx.
  destruct (randbelow rng MAP_SIZE) as [x rng1].
  pose proof (randbelow_range rng1 MAP_SIZE eq_refl) as Hy.
  destruct (randbelow rng1 MAP_SIZE) as [y rng2]. cbn in Hx, Hy.
  destruct ((x =? 0) && (y =? 0)) eqn:Ebase; [by eapply IH|].
  destruct (occupied stations x y) eqn:Eocc; [by eapply IH|].
  destruct (choice rng2 station_names) as [name rng3].
  eapply IH; [| | |exact Hrun].
  - apply Forall_app. split; [done|]. constructor; [|constructor].
    unfold station_valid; cbn. unfold MAP_SIZE in *. lia.
  - rewrite fmap_app. apply NoDup_app. split_and!; [done| |apply NoDup_singleton].
    intros p Hp Hin. cbn in Hin. apply list_elem_of_singleton in Hin. subst p.
    by apply occupied_false in Eocc.
  - rewrite length_app. cbn. lia.
Qed.

(** C8. Whenever station generation completes, the list it returns has
    exactly 3 stations, each with [x] and [y] in [0, MAP_SIZE), none on
    the base tile (0,0), and no two at the same position. *)
Theorem generate_stations_valid fuel seed u stations u' :
  generate_stations fuel seed u = Some (stations, u') ->
  length stations = 3%nat
  /\ Forall (fun s => 0 <= Station.x s < MAP_SIZE
                      /\ 0 <= Station.y s < MAP_SIZE
                      /\ ~ (Station.x s = 0 /\ Station.y s = 0)) stations
  /\ NoDup (station_pos <$> stations).
Proof.
  intros Hrun. unfold generate_stations in Hrun.
  eapply generate_stations_loop_valid in Hrun; [done|constructor..|cbn; lia].
Qed.

(** *** World generation *)

Lemma generate_anomalies_loop_fields k rng u1 u2 (acc1 acc2 : list Anomaly.t) :
  anomaly_fields <$> acc1 = anomaly_fields <$> acc2 ->
  anomaly_fields <$> (generate_anomalies_loop k rng u1 acc1).1
  = anomaly_fields <$> (generate_anomalies_loop k rng u2 acc2).1.
Proof.
  revert rng u1 u2 acc1 acc2.
  induction k as [|k IH]; intros rng u1 u2 acc1 acc2 Hacc; [done|].
  cbn [generate_anomalies_loop]. repeat case_match. apply IH.
  by rewrite !fmap_app, Hacc.
Qed.

Lemma occupied_fields (st1 st2 : list Station.t) x y :
  station_fields <$> st1 = station_fields <$> st2 ->
  occupied st1 x y = occupied st2 x y.
Proof.
  revert st2. induction st1 as [|s1 st1 IH]; intros [|s2 st2] Hf;
    simplify_eq/=; [done|].
  f_equal; [|by apply IH]. unfold station_fields in *. congruence.
Qed.

Lemma generate_stations_loop_fields fuel rng u1 u2 (st1 st2 : list Station.t) :
  station_fields <$> st1 = station_fields <$> st2 ->
  (fun r : list Station.t * nat => station_fields <$> r.1) <$> generate_stations_loop fuel rng u1 st1
  = (fun r : list Station.t * nat => station_fields <$> r.1) <$> generate_stations_loop fuel rng u2 st2.
Proof.
  revert rng u1 u2 st1 st2.
  induction fuel as [|fuel IH]; intros rng u1 u2 st1 st2 Hst;
    cbn [generate_stations_loop];
    assert (length st1 = length st2) as ->
      by (by rewrite <- (length_fmap station_fields st1), Hst, length_fmap);
    (destruct (3 <=? length st2)%nat; cbn; [by rewrite Hst|]); [done|].
  destruct (randrange rng MAP_SIZE) as [x rng1].
  destruct (randrange rng1 MAP_SIZE) as [y rng2].
  destruct ((x =? 0) && (y =? 0)); [by apply IH|].
  rewrite (occupied_fields st1 st2) by done.
  destruct (occupied st2 x y); [by apply IH|].
  destruct (choice rng2 station_names) as [name rng3].
  apply IH. by rewrite !fmap_app, Hst.
Qed.

(** C3 (amended). World generation run twice with the same seed gives
    anomaly lists and station lists that agree in order and in every
    field except [id]: the identifiers are fresh draws of [uuid4], which
    the seed does not determine. *)
Theorem generation_deterministic_up_to_ids seed fuel u1 u2 :
  anomaly_fields <$> (generate_anomalies seed u1).1
  = anomaly_fields <$> (generate_anomalies seed u2).1
  /\ (fun r : list Station.t * nat => station_fields <$> r.1) <$> generate_stations fuel seed u1
     = (fun r : list Station.t * nat => station_fields <$> r.1) <$> generate_stations fuel seed u2.
Proof.
  split.
  - by apply generate_anomalies_loop_fields.
  - by apply generate_stations_loop_fields.
Qed.

(** *** Letter case *)

Lemma lower_ascii_idemp c : lower_ascii (lower_ascii c) = lower_ascii c.
Proof. by destruct c as [[] [] [] [] [] [] [] []]. Qed.

Lemma lower_idemp s : lower (lower s) = lower s.
Proof.
  induction s as [|c s IH]; [done|]. cbn. by rewrite lower_ascii_idemp, IH.
Qed.

Lemma act_session_lowercase request s :
  act_session (lowercase_request request) s = act_session request s.
Proof.
  unfold act_session, act_dispatch, act_travel, lowercase_request. cbn.
  rewrite lower_idemp.
  by destruct (ActionRequest.direction request); cbn; rewrite ?lower_idemp.
Qed.

(** C10. Action names and directions are matched without regard to
    letter case: a request gives the same store and the same response
    as the request with its action name and direction in lower case. *)
Theorem act_case_insensitive games request :
  act games request = act games (lowercase_request request).
Proof.
  unfold act.
  change (ActionRequest.game_id (lowercase_request request))
    with (ActionRequest.game_id request).
  destruct (games !! _) as [state|]; [|done].
  by rewrite act_session_lowercase.
Qed.

End Properties.

(** ** The recorded runs *)

Lemma store_lookup state : store state !! first_id = Some state.
Proof. apply lookup_singleton_eq. Qed.

Lemma act_store `{py : PyRuntime} request state state' r :
  ActionRequest.game_id request = first_id ->
  act_session request state = (state', r) ->
  act (store state) request = (store state', r).
Proof.
  intros Hid Hs. unfold store. rewrite <- Hid, act_singleton, Hs. done.
Qed.

Lemma ambush_travel :
  act (py:=cpython) ambush_games0 travel_east
  = (ambush_games1, Return (public_state ambush_state1 None)).
Proof. apply act_store; [reflexivity | vm_compute; reflexivity]. Qed.

Lemma ambush_games0_reachable : reachable (py:=cpython) ambush_games0.
Proof.
  apply (reachable_new_session (py:=cpython) 64 (MT19937.seed 1700000005)
           ambush_state0 14).
  vm_compute. reflexivity.
Qed.

Lemma win_games0_reachable : reachable (py:=cpython) win_games0.
Proof.
  apply (reachable_new_session (py:=cpython) 64 (MT19937.seed 1700001078)
           win_state0 14).
  vm_compute. reflexivity.
Qed.

Lemma win_salvage4 :
  act (py:=cpython) win_games3 (salvage "0000000a000040008000000000000000")
  = (win_games4, Return (public_state win_state4 None)).
Proof. apply act_store; [reflexivity | vm_compute; reflexivity]. Qed.

Lemma win_games3_reachable : reachable (py:=cpython) win_games3.
Proof.
  apply (reachable_act (store win_state2)
           (salvage "00000009000040008000000000000000") _
           (Return (public_state win_state3 None)));
    [|apply act_store; [reflexivity | vm_compute; reflexivity]].
  apply (reachable_act (store win_state1)
           (salvage "00000008000040008000000000000000") _
           (Return (public_state win_state2 None)));
    [|apply act_store; [reflexivity | vm_compute; reflexivity]].
  apply (reachable_act win_games0
           (salvage "00000006000040008000000000000000") _
           (Return (public_state win_state1 None)));
    [|apply act_store; [reflexivity | vm_compute; reflexivity]].
  exact win_games0_reachable.
Qed.

Lemma win_games4_reachable : reachable (py:=cpython) win_games4.
Proof.
  exact (reachable_act _ _ _ _ win_games3_reachable win_salvage4).
Qed.

(** C1, as stated, fails: the move east of the first run resolves and
    appends two log entries, the transit and the ambush. *)
Lemma travel_into_ambush_logs_twice :
  ambush_games0 !! first_id = Some ambush_state0
  /\ GameState.status ambush_state0 = active
  /\ act (py:=cpython) ambush_games0 travel_east
     = (ambush_games1, Return (public_state ambush_state1 None))
  /\ ambush_games1 !! first_id = Some ambush_state1
  /\ GameState.turn ambush_state1 = GameState.turn ambush_state0 + 1
  /\ GameState.log ambush_state1
     = GameState.log ambush_state0
       ++ ["Transit clean. Engines humming.";
           "Pirate ambush! They demand cargo or a fight."].
Proof.
  split_and!;
    [apply store_lookup | reflexivity | exact ambush_travel
    | apply store_lookup | reflexivity | reflexivity].
Qed.

(** The witness of C1: the move east of the first run. *)
Lemma act_atomic_witness :
  (exists state' nearby new,
      act (py:=cpython) ambush_games0 travel_east
      = (<[first_id := state']> ambush_games0,
         Return (public_state state' nearby))
      /\ GameState.turn state' = GameState.turn ambush_state0 + 1
      /\ GameState.log state' = GameState.log ambush_state0 ++ new
      /\ (1 <= length new <= 2)%nat
      /\ GameState.status state' = status_of state')
  \/ (exists detail,
        act (py:=cpython) ambush_games0 travel_east
        = (ambush_games0, Raise (HTTPException 400 detail))).
Proof.
  apply (act_atomic (py:=cpython) ambush_games0 travel_east ambush_state0).
  - exact ambush_games0_reachable.
  - apply store_lookup.
  - reflexivity.
Defined.

(** The witness of C2: a move requested after the second run is won. *)
Lemma act_terminal_noop_witness :
  act (py:=cpython) win_games4 travel_east
  = (win_games4, Return (public_state win_state4 None)).
Proof.
  apply (act_terminal_noop (py:=cpython) win_games4 travel_east win_state4).
  - apply store_lookup.
  - left. reflexivity.
Defined.

(** C3, as stated, fails: the world of seed 634708 generated for the
    first session of a process and generated again for the second one
    differ, in the identifiers. *)
Lemma second_world_has_other_ids :
  (generate_anomalies (py:=cpython) 634708 1).1
  <> (generate_anomalies (py:=cpython) 634708 15).1
  /\ fst <$> generate_stations (py:=cpython) 64 634708 11
     <> fst <$> generate_stations (py:=cpython) 64 634708 25.
Proof.
  assert (first_anomaly_id (generate_anomalies (py:=cpython) 634708 1).1
          = "00000002000040008000000000000000") as A1
    by (vm_compute; reflexivity).
  assert (first_anomaly_id (generate_anomalies (py:=cpython) 634708 15).1
          = "00000010000040008000000000000000") as A2
    by (vm_compute; reflexivity).
  assert (first_station_id
            (fst <$> generate_stations (py:=cpython) 64 634708 11)
          = "0000000c000040008000000000000000") as S1
    by (vm_compute; reflexivity).
  assert (first_station_id
            (fst <$> generate_stations (py:=cpython) 64 634708 25)
          = "0000001a000040008000000000000000") as S2
    by (vm_compute; reflexivity).
  split; intros E.
  - rewrite E in A1. rewrite A1 in A2. discriminate A2.
  - rewrite E in S1. rewrite S1 in S2. discriminate S2.
Qed.

(** The witness of C4: the move east of the first run. *)
Lemma act_status_recomputed_witness :
  exists state' : GameState.t,
    ambush_games1 !! first_id = Some state'
    /\ PublicState.status (public_state ambush_state1 None)
       = GameState.status state'
    /\ (GameState.status state' = lost <-> GameState.hull state' <= 0)
    /\ (GameState.status state' = won <->
        0 < GameState.hull state' /\ GOAL_CREDITS <= GameState.credits state'
        /\ GameState.x state' = 0 /\ GameState.y state' = 0)
    /\ (GameState.status state' = active <->
        0 < GameState.hull state'
        /\ ~ (GOAL_CREDITS <= GameState.credits state'
              /\ GameState.x state' = 0 /\ GameState.y state' = 0)).
Proof.
  apply (act_status_recomputed (py:=cpython) ambush_games0 travel_east
           ambush_state0 ambush_games1 (public_state ambush_state1 None)).
  - apply store_lookup.
  - reflexivity.
  - exact ambush_travel.
Defined.

(** The witness of C5: the session of the first run, ambushed. *)
Lemma pending_event_exclusive_witness :
  (lower "salvage" ∉ ["fight"; "bribe"; "evade"] ->
   act (py:=cpython) ambush_games1 (salvage "0000000a000040008000000000000000")
   = (ambush_games1, Raise (HTTPException 400 "Resolve the ambush first")))
  /\ (lower "salvage" ∈ ["fight"; "bribe"; "evade"] ->
      forall games' view,
        act (py:=cpython) ambush_games1
            (salvage "0000000a000040008000000000000000")
        = (games', Return view) ->
        exists state' : GameState.t,
          games' !! first_id = Some state'
          /\ GameState.pending_event state' = None
          /\ PublicState.pendingEvent view = None).
Proof.
  apply (pending_event_exclusive (py:=cpython) ambush_games1
           (salvage "0000000a000040008000000000000000") ambush_state1
           (PendingEvent.mk "pirate_ambush" 1)).
  - apply store_lookup.
  - reflexivity.
  - reflexivity.
Defined.

(** C6, as stated, fails twice.  In the first run the ship is on the
    tile of an uncollected anomaly and the session is active, but an
    ambush is pending and the salvage is rejected.  In the second run
    the fourth salvage wins the game, and the same request sent again
    is answered with the view, not with a validation error. *)
Lemma salvage_blocked_or_silent :
  (ambush_games1 !! first_id = Some ambush_state1
   /\ GameState.status ambush_state1 = active
   /\ (GameState.x ambush_state1, GameState.y ambush_state1) = (1, 0)
   /\ list_find (fun a => Anomaly.id a = "0000000a000040008000000000000000")
                (GameState.anomalies ambush_state1)
      = Some (8%nat, Anomaly.mk "0000000a000040008000000000000000"
                                "Drift Beacon" 1 0 24 1 false)
   /\ act (py:=cpython) ambush_games1
          (salvage "0000000a000040008000000000000000")
      = (ambush_games1, Raise (HTTPException 400 "Resolve the ambush first")))
  /\ (win_games3 !! first_id = Some win_state3
      /\ GameState.status win_state3 = active
      /\ GameState.pending_event win_state3 = None
      /\ act (py:=cpython) win_games3
             (salvage "0000000a000040008000000000000000")
         = (win_games4, Return (public_state win_state4 None))
      /\ GameState.credits win_state4 = GameState.credits win_state3 + 39
      /\ GameState.status win_state4 = won
      /\ act (py:=cpython) win_games4
             (salvage "0000000a000040008000000000000000")
         = (win_games4, Return (public_state win_state4 None))).
Proof.
  split; split_and!;
    try apply store_lookup; try exact win_salvage4;
    try (apply act_store; [reflexivity|]);
    vm_compute; reflexivity.
Qed.

(** The witness of C6: the first salvage of the second run. *)
Lemma salvage_collects_once_witness :
  exists (k : Z) (state' : GameState.t),
    let request := salvage "00000006000040008000000000000000" in
    let anomaly := Anomaly.mk "00000006000040008000000000000000"
                              "Drift Beacon" 0 0 35 2 false in
    let games' := <[first_id := state']> win_games0 in
    int16 (PyRuntime:=cpython)
          (substring 0 8 "00000006000040008000000000000000") = Some k
    /\ act (py:=cpython) win_games0 request
       = (games', Return (public_state state' None))
    /\ GameState.credits state' = GameState.credits win_state0 + 35
    /\ GameState.anomalies state'
       = <[4%nat := Anomaly.set_collected true anomaly]>
           (GameState.anomalies win_state0)
    /\ GameState.hull state'
       = (if ((random (PyRuntime:=cpython)
                 (Random (GameState.seed win_state0 + k))).1
              <? float_of_Z 2 * 0.15)%float
          then GameState.hull win_state0 - 1 else GameState.hull win_state0)
    /\ (GameState.status state' = active ->
        act (py:=cpython) games' request
        = (games', Raise (HTTPException 400 "Invalid salvage target")))
    /\ (GameState.status state' <> active ->
        act (py:=cpython) games' request
        = (games', Return (public_state state' None))).
Proof.
  apply (salvage_collects_once (py:=cpython) win_games0
           (salvage "00000006000040008000000000000000") win_state0
           "00000006000040008000000000000000" 4
           (Anomaly.mk "00000006000040008000000000000000"
                       "Drift Beacon" 0 0 35 2 false)).
  - exact win_games0_reachable.
  - apply store_lookup.
  - reflexivity.
  - reflexivity.
  - reflexivity.
  - reflexivity.
  - vm_compute. reflexivity.
  - reflexivity.
  - reflexivity.
  - reflexivity.
Defined.

(** C7, as stated, fails: the second run ends won with the fuel at
    MAX_FUEL, and a refuel requested then is answered with the view,
    as a no-op, not with a validation error. *)
Lemma refuel_after_win_is_silent :
  reachable (py:=cpython) win_games4
  /\ win_games4 !! first_id = Some win_state4
  /\ GameState.status win_state4 = won
  /\ GameState.fuel win_state4 = MAX_FUEL
  /\ act (py:=cpython) win_games4 refuel
     = (win_games4, Return (public_state win_state4 None)).
Proof.
  split_and!;
    [exact win_games4_reachable | apply store_lookup | reflexivity
    | reflexivity | apply act_store; [reflexivity | vm_compute; reflexivity]].
Qed.

(** The witness of C7: the session of the first run, before its move
    east. *)
Lemma fuel_within_bounds_witness :
  0 <= GameState.fuel ambush_state0 <= MAX_FUEL
  /\ (GameState.status ambush_state0 = active ->
      (forall games' view,
          act (py:=cpython) ambush_games0 travel_east = (games', Return view) ->
          exists state' : GameState.t,
            games' !! first_id = Some state'
            /\ (lower "travel" ∈ ["travel"; "evade"] ->
                0 < GameState.fuel ambush_state0
                /\ GameState.fuel state' = GameState.fuel ambush_state0 - 1)
            /\ (buys_fuel travel_east ->
                GameState.fuel ambush_state0 < MAX_FUEL
                /\ GameState.fuel state'
                   = Z.min MAX_FUEL
                       (GameState.fuel ambush_state0 + fuel_gain travel_east)))
      /\ (buys_fuel travel_east ->
          GameState.fuel ambush_state0 = MAX_FUEL ->
          exists detail,
            act (py:=cpython) ambush_games0 travel_east
            = (ambush_games0, Raise (HTTPException 400 detail)))).
Proof.
  apply (fuel_within_bounds (py:=cpython) ambush_games0 travel_east
           ambush_state0).
  - exact ambush_games0_reachable.
  - apply store_lookup.
Defined.

(** The witness of C8: the stations of the second run. *)
Lemma generate_stations_valid_witness :
  length (GameState.stations win_state0) = 3%nat
  /\ Forall (fun s => 0 <= Station.x s < MAP_SIZE
                      /\ 0 <= Station.y s < MAP_SIZE
                      /\ ~ (Station.x s = 0 /\ Station.y s = 0))
            (GameState.stations win_state0)
  /\ NoDup (station_pos <$> GameState.stations win_state0).
Proof.
  apply (generate_stations_valid (py:=cpython) 64 634708 11
           (GameState.stations win_state0) 14).
  vm_compute. reflexivity.
Defined.

(** The witness of C9: the move east of the first run. *)
Lemma travel_rolls_seeded_at_origin_witness :
  let rng := Random (PyRuntime:=cpython)
               (GameState.seed ambush_state0 + GameState.turn ambush_state0 * 31
                + GameState.x ambush_state0 * 13
                + GameState.y ambush_state0 * 7) in
  let hazard := random rng in
  let ambush := random hazard.2 in
  exists state' : GameState.t,
    ambush_games1 !! first_id = Some state'
    /\ (GameState.x state', GameState.y state')
       <> (GameState.x ambush_state0, GameState.y ambush_state0)
    /\ GameState.hull state'
       = (if (hazard.1 <? 0.15)%float then GameState.hull ambush_state0 - 1
          else GameState.hull ambush_state0)
    /\ GameState.pending_event state'
       = (if (ambush.1 <? 0.2)%float
          then Some (PendingEvent.mk "pirate_ambush" (randint ambush.2 1 3).1)
          else None).
Proof.
  apply (travel_rolls_seeded_at_origin (py:=cpython) ambush_games0 travel_east
           ambush_state0 ambush_games1 (public_state ambush_state1 None)).
  - apply store_lookup.
  - reflexivity.
  - reflexivity.
  - exact ambush_travel.
Defined.

(** * Further properties of the generator, the store and the resolver

    The definitions these properties are stated with come first. *)

(** ** Well-formed worlds and sessions *)

(** An anomaly as [generate_anomalies] draws them. *)
Definition anomaly_valid (a : Anomaly.t) : Prop :=
  Anomaly.name a ∈ anomaly_names
  /\ 0 <= Anomaly.x a < MAP_SIZE /\ 0 <= Anomaly.y a < MAP_SIZE
  /\ 10 <= Anomaly.value a <= 40 /\ 1 <= Anomaly.risk a <= 4.

(** A pending event as [act] makes them. *)
Definition event_valid (e : PendingEvent.t) : Prop :=
  PendingEvent.type e = "pirate_ambush" /\ 1 <= PendingEvent.threat e <= 3.

(** What the actions keep true of the fields they work on: the ship is
    on the map, the hull is at most MAX_HULL, the credits are not
    negative, a pending event is valid and the ten anomalies are
    valid. *)
Definition play_inv (s : GameState.t) : Prop :=
  0 <= GameState.x s < MAP_SIZE /\ 0 <= GameState.y s < MAP_SIZE
  /\ GameState.hull s <= MAX_HULL
  /\ 0 <= GameState.credits s
  /\ (forall e, GameState.pending_event s = Some e -> event_valid e)
  /\ Forall anomaly_valid (GameState.anomalies s)
  /\ length (GameState.anomalies s) = 10%nat.

(** A session as [new_game] makes it and [act] keeps it. *)
Definition session_wf (s : GameState.t) : Prop :=
  play_inv s
  /\ 1 <= GameState.seed s <= 999999
  /\ 1 <= GameState.turn s
  /\ GameState.status s = status_of s
  /\ length (GameState.stations s) = 3%nat
  /\ Forall station_valid (GameState.stations s)
  /\ NoDup (station_pos <$> GameState.stations s).

(** The move a direction letter stands for, and the tiles of the map. *)
Definition direction_delta (d : string) : option (Z * Z) :=
  if decide (d = "n") then Some (0, -1)
  else if decide (d = "s") then Some (0, 1)
  else if decide (d = "w") then Some (-1, 0)
  else if decide (d = "e") then Some (1, 0)
  else None.

Definition on_map (x y : Z) : Prop :=
  0 <= x < MAP_SIZE /\ 0 <= y < MAP_SIZE.

(** The nine action names of [act]. *)
Definition action_names : list string :=
  ["scan"; "travel"; "salvage"; "trade"; "refuel"; "repair"; "fight";
   "bribe"; "evade"].

(** What [scan] reports: the uncollected anomalies on the tile of the
    ship, in the order of the session. *)
Definition anomalies_here (s : GameState.t) : list Anomaly.t :=
  filter (fun a => Anomaly.collected a = false
                   /\ Anomaly.x a = GameState.x s
                   /\ Anomaly.y a = GameState.y s)
         (GameState.anomalies s).

(** What [act] never changes in an anomaly: everything but the
    [collected] flag, which it never clears. *)
Definition anomaly_kept (a a' : Anomaly.t) : Prop :=
  Anomaly.id a' = Anomaly.id a /\ Anomaly.name a' = Anomaly.name a
  /\ Anomaly.x a' = Anomaly.x a /\ Anomaly.y a' = Anomaly.y a
  /\ Anomaly.value a' = Anomaly.value a /\ Anomaly.risk a' = Anomaly.risk a
  /\ (Anomaly.collected a = true -> Anomaly.collected a' = true).

(** The entry of the view for an anomaly that [scan] reports. *)
Definition nearby_of (a : Anomaly.t) : Nearby.t :=
  Nearby.mk (Anomaly.id a) (Anomaly.name a) (Anomaly.value a) (Anomaly.risk a).

(** Requests of the first session that carry an action name only. *)
Definition request_of (action : string) : ActionRequest.t :=
  ActionRequest.mk first_id action None None None.

Section Generation.
Context `{py : PyRuntime}.

Lemma randint_range rng a b :
  a <= b -> a <= (randint rng a b).1 <= b.
Proof.
  intros Hab. unfold randint.
  pose proof (randbelow_range rng (b - a + 1)) as Hr.
  destruct (randbelow rng (b - a + 1)) as [k rng']. cbn in *. lia.
Qed.

Lemma choice_elem rng (seq : list string) :
  seq <> [] -> (choice rng seq).1 ∈ seq.
Proof.
  intros Hne. unfold choice.
  pose proof (randbelow_range rng (Z.of_nat (length seq))) as Hr.
  destruct (randbelow rng (Z.of_nat (length seq))) as [k rng']. cbn in *.
  apply list_elem_of_In, nth_In.
  destruct seq; [done|]. cbn [length] in *. lia.
Qed.

Lemma generate_anomalies_loop_valid k rng u acc :
  (generate_anomalies_loop k rng u acc).2 = (u + k)%nat
  /\ exists new,
       (generate_anomalies_loop k rng u acc).1 = acc ++ new
       /\ length new = k
       /\ Forall (fun a => anomaly_valid a /\ Anomaly.collected a = false) new
       /\ Anomaly.id <$> new = uuid4_hex <$> seq u k.
Proof.
  revert rng u acc. induction k as [|k IH]; intros rng u acc.
  { cbn. split; [lia|]. exists []. by rewrite app_nil_r. }
  cbn [generate_anomalies_loop].
  pose proof (choice_elem rng anomaly_names) as Hname.
  destruct (choice rng anomaly_names) as [name rng1].
  unfold randrange.
  pose proof (randbelow_range rng1 MAP_SIZE eq_refl) as Hx.
  destruct (randbelow rng1 MAP_SIZE) as [x rng2].
  pose proof (randbelow_range rng2 MAP_SIZE eq_refl) as Hy.
  destruct (randbelow rng2 MAP_SIZE) as [y rng3].
  pose proof (randint_range rng3 10 40) as Hv.
  destruct (randint rng3 10 40) as [value rng4].
  pose proof (randint_range rng4 1 4) as Hr.
  destruct (randint rng4 1 4) as [risk rng5]. cbn in Hname, Hx, Hy, Hv, Hr.
  destruct (IH rng5 (S u)
              (acc ++ [Anomaly.mk (uuid4_hex u) name x y value risk false]))
    as (Hu & new & Hl & Hlen & Hall & Hids).
  split; [lia|].
  eexists (_ :: new). rewrite Hl, <- app_assoc. split; [done|].
  split; [cbn; lia|]. split.
  - constructor; [|done]. unfold anomaly_valid; cbn.
    split; [|done]. split; [by apply Hname|]. lia.
  - cbn. by rewrite Hids.
Qed.

(** X1. [generate_anomalies] returns exactly 10 anomalies, whatever the
    seed: each has a name of the table, a position on the map, a value
    in [10, 40], a risk in [1, 4] and is uncollected; their identifiers
    are the next 10 values of [uuid4]. *)
Theorem generate_anomalies_valid seed u :
  length (generate_anomalies seed u).1 = 10%nat
  /\ (generate_anomalies seed u).2 = (u + 10)%nat
  /\ Forall (fun a => anomaly_valid a /\ Anomaly.collected a = false)
            (generate_anomalies seed u).1
  /\ Anomaly.id <$> (generate_anomalies seed u).1 = uuid4_hex <$> seq u 10.
Proof.
  unfold generate_anomalies.
  destruct (generate_anomalies_loop_valid 10 (Random seed) u [])
    as (Hu & new & Hl & Hlen & Hall & Hids).
  rewrite Hl, Hu. cbn [app]. done.
Qed.

Lemma generate_stations_loop_count fuel rng u stations result u' :
  (length stations <= 3)%nat ->
  generate_stations_loop fuel rng u stations = Some (result, u') ->
  (u' + length stations = u + 3)%nat
  /\ exists new, result = stations ++ new
       /\ Station.id <$> new = uuid4_hex <$> seq u (3 - length stations)
       /\ Forall (fun s => Station.name s ∈ station_names) new.
Proof.
  revert rng u stations.
  induction fuel as [|fuel IH]; intros rng u stations Hlen Hrun;
    cbn [generate_stations_loop] in Hrun;
    destruct (3 <=? length stations)%nat eqn:El;
    try (apply Nat.leb_le in El; simplify_eq;
         replace (3 - length result)%nat with 0%nat by lia;
         split; [lia | exists []; by rewrite app_nil_r]);
    [done|].
  apply Nat.leb_gt in El.
  destruct (randrange rng MAP_SIZE) as [x rng1].
  destruct (randrange rng1 MAP_SIZE) as [y rng2].
  destruct ((x =? 0) && (y =? 0)); [by eapply IH|].
  destruct (occupied stations x y); [by eapply IH|].
  pose proof (choice_elem rng2 station_names) as Hname.
  destruct (choice rng2 station_names) as [name rng3]. cbn in Hname.
  apply IH in Hrun as (Hu & new & -> & Hids & Hnames);
    [|rewrite length_app; cbn; lia].
  rewrite length_app in Hu, Hids. cbn in Hu, Hids.
  split; [lia|]. eexists (_ :: new). rewrite <- app_assoc. split; [done|].
  split.
  - replace (3 - length stations)%nat
      with (S (3 - (length stations + 1)))%nat by lia.
    cbn. by rewrite Hids.
  - constructor; [by apply Hname | done].
Qed.

End Generation.

Section Invariants.
Context `{py : PyRuntime}.

Ltac unfold_act_in H :=
  cbv [act_dispatch act_scan act_travel act_salvage act_trade act_refuel
       act_repair act_fight act_bribe act_evade bad_request log_append
       mbind mret M_bind M_ret get modify raise] in H.

Ltac case_match_hyp :=
  match goal with
  | H : context [match ?x with _ => _ end] |- _ => destruct x eqn:?
  end.

(** A branch of the resolver keeps [play_inv] when it returns. *)
Definition keeps_play {A} (m : M A) : Prop :=
  forall s s' a, play_inv s -> m s = (s', Return a) -> play_inv s'.

Ltac play_leaf :=
  simplify_eq;
  repeat match goal with
         | H : (_ || _) = false |- _ => apply orb_false_iff in H as [? ?]
         end;
  match goal with
  | Hinv : play_inv _ |- play_inv _ =>
    destruct Hinv as (Hx & Hy & Hh & Hc & He & Ha & Hl);
    unfold play_inv; cbn; unfold MAP_SIZE, MAX_HULL in *;
    split_and!; try done; try lia
  end.

Lemma act_scan_keeps : keeps_play act_scan.
Proof.
  intros s s' a Hinv Hrun. unfold_act_in Hrun.
  repeat case_match_hyp; play_leaf.
Qed.

Lemma act_trade_keeps request : keeps_play (act_trade request).
Proof.
  intros s s' a Hinv Hrun. unfold_act_in Hrun.
  repeat case_match_hyp; play_leaf.
Qed.

Lemma act_refuel_keeps : keeps_play act_refuel.
Proof.
  intros s s' a Hinv Hrun. unfold_act_in Hrun.
  repeat case_match_hyp; play_leaf.
Qed.

Lemma act_repair_keeps : keeps_play act_repair.
Proof.
  intros s s' a Hinv Hrun. unfold_act_in Hrun.
  repeat case_match_hyp; play_leaf.
Qed.

Lemma act_bribe_keeps : keeps_play act_bribe.
Proof.
  intros s s' a Hinv Hrun. unfold_act_in Hrun.
  repeat case_match_hyp; play_leaf.
Qed.

Lemma act_evade_keeps rng : keeps_play (act_evade rng).
Proof.
  intros s s' a Hinv Hrun. unfold_act_in Hrun.
  repeat case_match_hyp; play_leaf.
Qed.

Lemma act_fight_keeps rng : keeps_play (act_fight rng).
Proof.
  intros s s' a Hinv Hrun. unfold_act_in Hrun.
  repeat case_match_hyp; simplify_eq;
    match goal with
    | Hp : GameState.pending_event _ = Some ?e |- _ =>
      pose proof (proj1 (proj2 (proj2 (proj2 (proj2 Hinv)))) e Hp) as [_ Ht]
    end;
    play_leaf.
Qed.

Lemma act_travel_keeps request rng : keeps_play (act_travel request rng).
Proof.
  intros s s' a Hinv Hrun. unfold_act_in Hrun.
  repeat case_match_hyp; simplify_eq;
    try match goal with
    | Hr : randint ?g 1 3 = (?t, _) |- _ =>
      let Hrange := fresh "Hrange" in
      pose proof (randint_range g 1 3) as Hrange;
      rewrite Hr in Hrange; cbn in Hrange
    end;
    play_leaf;
    (intros ev [= <-]; split; [done | cbn; lia]).
Qed.

Lemma act_salvage_keeps request : keeps_play (act_salvage request).
Proof.
  intros s s' a Hinv Hrun. unfold_act_in Hrun.
  repeat case_match_hyp; simplify_eq;
    match goal with
    | Hf : list_find _ _ = Some (?i, ?x) |- _ =>
      apply list_find_Some in Hf as (Hi & _ & _);
      pose proof (Forall_lookup_1 _ _ _ _
                    (proj1 (proj2 (proj2 (proj2 (proj2 (proj2 Hinv)))))) Hi)
        as (Hn & Hax & Hay & Hav & Har)
    end;
    play_leaf;
    try (by rewrite length_insert);
    apply Forall_insert; done.
Qed.


Lemma keeps_then_None (m : M unit) :
  keeps_play m -> keeps_play (m;; mret (@None (list Nearby.t))).
Proof.
  intros Hm s s' a Hinv Hrun. cbv [mbind mret M_bind M_ret] in Hrun.
  destruct (m s) as [s1 [[]|e]] eqn:E; simplify_eq. exact (Hm _ _ _ Hinv E).
Qed.

Lemma act_dispatch_keeps request action rng :
  keeps_play (act_dispatch request action rng).
Proof.
  unfold act_dispatch.
  repeat case_decide;
    try (apply keeps_then_None;
         auto using act_travel_keeps, act_salvage_keeps, act_trade_keeps,
           act_refuel_keeps, act_repair_keeps, act_fight_keeps,
           act_bribe_keeps, act_evade_keeps).
  - intros s s' a Hinv Hrun. cbv [mbind mret M_bind M_ret] in Hrun.
    destruct (act_scan s) as [s1 [l|e]] eqn:E; simplify_eq.
    exact (act_scan_keeps _ _ _ Hinv E).
  - intros s s' a Hinv Hrun. cbv [bad_request raise] in Hrun. simplify_eq.
Qed.

Lemma play_inv_finish s : play_inv s -> play_inv (finish s).
Proof.
  unfold play_inv.
  destruct (finish_frame s) as (_&_&->&->&_&->&->&_&->&_&->). done.
Qed.

Lemma finish_seed s : GameState.seed (finish s) = GameState.seed s.
Proof. unfold finish, update_status. by repeat case_match. Qed.

Lemma act_session_wf request s :
  session_wf s -> session_wf (act_session request s).1.
Proof.
  intros Hwf.
  destruct (decide (GameState.status s = active)) as [Ha|Ha];
    [|by rewrite act_session_terminal].
  rewrite act_session_active by done.
  destruct (_ && _); [done|].
  destruct (act_dispatch _ _ _ s) as [s1 [nearby|e]] eqn:E;
    pose proof (act_dispatch_spec _ _ _ _ _ _ E) as Hspec; cbn in Hspec;
    [|by destruct Hspec as [-> _]].
  destruct Hspec as ((_ & Hseed & Hturn & _ & Hst & _) & _ & _).
  destruct Hwf as (Hplay & Hs & Ht & _ & Hn & Hv & Hd).
  destruct (finish_frame s1) as (_&Et&_&_&_&_&_&_&_&Es&_).
  unfold session_wf. cbn [fst].
  rewrite finish_seed, Et, Es, Hseed, Hturn, Hst.
  split_and!; try done; try lia.
  - eapply play_inv_finish, act_dispatch_keeps; eauto.
  - apply status_of_finish.
Qed.

Lemma new_session_initial fuel clock u state u' :
  new_session fuel clock u = Some (state, u') ->
  session_wf state
  /\ GameState.id state = uuid4_hex u
  /\ GameState.turn state = 1
  /\ GameState.x state = 0 /\ GameState.y state = 0
  /\ GameState.fuel state = MAX_FUEL /\ GameState.hull state = MAX_HULL
  /\ GameState.credits state = 20
  /\ GameState.status state = active
  /\ GameState.log state = ["Docked at Base. Systems green."]
  /\ GameState.pending_event state = None
  /\ Forall (fun a => Anomaly.collected a = false) (GameState.anomalies state)
  /\ u' = (u + 14)%nat.
Proof.
  unfold new_session. intros Hnew.
  pose proof (randint_range clock 1 999999) as Hseed.
  destruct (randint clock 1 999999) as [seed rng]. cbn in Hseed.
  pose proof (generate_anomalies_valid seed (S u)) as (Hl & Hu & Ha & _).
  destruct (generate_anomalies seed (S u)) as [anomalies u1]. cbn in Hl, Hu, Ha.
  destruct (generate_stations fuel seed u1) as [[stations u2]|] eqn:Es;
    simplify_eq/=.
  pose proof Es as Ec. unfold generate_stations in Es, Ec.
  apply generate_stations_loop_valid in Es as (Hn & Hv & Hd);
    [|constructor|constructor|cbn; lia].
  apply generate_stations_loop_count in Ec as (Hc & _); [|cbn; lia].
  cbn in Hc.
  split.
  { unfold session_wf, play_inv, status_of; cbn.
    unfold MAP_SIZE, MAX_HULL, GOAL_CREDITS.
    split_and!; try done; try lia.
    eapply Forall_impl; [exact Ha|]. by intros a [? _]. }
  split_and!; try done; try lia.
  eapply Forall_impl; [exact Ha|]. by intros a [_ ?].
Qed.

Lemma reachable_wf games :
  reachable games ->
  forall k s, games !! k = Some s -> GameState.id s = k /\ session_wf s.
Proof.
  induction 1 as [|fuel games clock u games' view u' _ IH Hnew
                  |games request games' r _ IH Hact]; intros k s Hk.
  - by rewrite lookup_empty in Hk.
  - unfold new_game in Hnew.
    destruct (new_session fuel clock u) as [[state u1]|] eqn:En;
      simplify_eq/=.
    apply new_session_initial in En as (Hwf & Hid & _).
    destruct (decide (GameState.id state = k)) as [Ek|Hne].
    + subst k. rewrite lookup_insert_eq in Hk. by simplify_eq.
    + rewrite lookup_insert_ne in Hk by done. eauto.
  - unfold act in Hact.
    destruct (games !! ActionRequest.game_id request) as [state|] eqn:Hg;
      [|simplify_eq; eauto].
    destruct (act_session request state) as [state' r'] eqn:Hs. simplify_eq.
    destruct (decide (ActionRequest.game_id request = k)) as [Ek|Hne].
    + subst k. rewrite lookup_insert_eq in Hk. simplify_eq.
      destruct (IH _ _ Hg) as [Hid Hwf].
      replace s with (act_session request state).1 by by rewrite Hs.
      split; [|by apply act_session_wf].
      destruct (decide (GameState.status state = active)) as [Ha|Ha];
        [|by rewrite act_session_terminal].
      rewrite act_session_active by done.
      destruct (_ && _); [done|].
      destruct (act_dispatch _ _ _ state) as [s1 [nearby|e]] eqn:E;
        pose proof (act_dispatch_spec _ _ _ _ _ _ E) as Hspec; cbn in Hspec.
      * destruct Hspec as ((Hi & _) & _).
        destruct (finish_frame s1) as (Ef & _). cbn. congruence.
      * by destruct Hspec as [-> _].
    + rewrite lookup_insert_ne in Hk by done. eauto.
Qed.

End Invariants.

Section Sessions.
Context `{py : PyRuntime}.

Lemma no_station_at_base (s : GameState.t) :
  Forall station_valid (GameState.stations s) ->
  GameState.x s = 0 -> GameState.y s = 0 ->
  current_station s = None.
Proof.
  intros Hv Hx Hy. unfold current_station.
  rewrite (proj2 (list_find_None _ _)); [done|].
  eapply Forall_impl; [exact Hv|].
  intros st (_ & _ & Hbase) [Hsx Hsy]. apply Hbase. lia.
Qed.

(** X2. When [new_game] returns, it has stored, under a fresh [uuid4]
    identifier, a session with a seed in [1, 999999], turn 1, the ship
    at the base (0,0), fuel MAX_FUEL, hull MAX_HULL, 20 credits, status
    active, the one docking log entry, no pending event, 10 uncollected
    anomalies and 3 stations; the view it returns is the projection of
    that session, which shows no station and nothing nearby; and it has
    drawn 14 identifiers. *)
Theorem new_game_initial fuel games clock u games' view u' :
  new_game fuel games clock u = Some (games', view, u') ->
  exists state,
    games' = <[uuid4_hex u := state]> games
    /\ view = public_state state None
    /\ GameState.id state = uuid4_hex u
    /\ 1 <= GameState.seed state <= 999999
    /\ GameState.turn state = 1
    /\ GameState.x state = 0 /\ GameState.y state = 0
    /\ GameState.fuel state = MAX_FUEL /\ GameState.hull state = MAX_HULL
    /\ GameState.credits state = 20
    /\ GameState.status state = active
    /\ GameState.log state = ["Docked at Base. Systems green."]
    /\ GameState.pending_event state = None
    /\ length (GameState.anomalies state) = 10%nat
    /\ Forall (fun a => Anomaly.collected a = false) (GameState.anomalies state)
    /\ length (GameState.stations state) = 3%nat
    /\ PublicState.station view = None
    /\ PublicState.nearby view = []
    /\ u' = (u + 14)%nat.
Proof.
  unfold new_game. intros Hnew.
  destruct (new_session fuel clock u) as [[state u1]|] eqn:En; simplify_eq/=.
  apply new_session_initial in En
    as (Hwf & Hid & Ht & Hx & Hy & Hf & Hh & Hc & Hs & Hl & Hp & Hu & Hn).
  destruct Hwf as (Hplay & Hseed & _ & _ & Hst & Hv & _).
  destruct Hplay as (_ & _ & _ & _ & _ & _ & Hal).
  exists state. rewrite Hid. split_and!; try done; try lia.
  by rewrite no_station_at_base.
Qed.

(** X3. [act] works on the session its request names and on nothing
    else: the store keeps its set of identifiers, every other session
    is as it was, and a request that names no session of the store
    fails with the error 404 and leaves the store unchanged. *)
Theorem act_touches_one_session games request :
  dom (act games request).1 = dom games
  /\ (forall k, k <> ActionRequest.game_id request ->
                (act games request).1 !! k = games !! k)
  /\ (games !! ActionRequest.game_id request = None ->
      act games request
      = (games, Raise (HTTPException 404 "Game not found"))).
Proof.
  unfold act.
  destruct (games !! ActionRequest.game_id request) as [state|] eqn:Hg;
    [|done].
  destruct (act_session request state) as [state' r]. cbn.
  split_and!; [|by intros k Hk; rewrite lookup_insert_ne|done].
  rewrite dom_insert_L. apply subseteq_union_1_L, singleton_subseteq_l.
  apply elem_of_dom. eauto.
Qed.

(** X4. In every reachable store, the ship of every session is on the
    map: [x] and [y] lie in [0, MAP_SIZE). *)
Theorem reachable_ship_on_map games k state :
  reachable games ->
  games !! k = Some state ->
  0 <= GameState.x state < MAP_SIZE /\ 0 <= GameState.y state < MAP_SIZE.
Proof.
  intros Hr Hk.
  destruct (reachable_wf _ Hr _ _ Hk) as (_ & (Hx & Hy & _) & _). done.
Qed.

(** X5. In every reachable store, every session has a hull of at most
    MAX_HULL, credits that are not negative and a turn of at least 1,
    and its pending event, when there is one, is a pirate ambush with a
    threat in [1, 3]. *)
Theorem reachable_resources_bounded games k state :
  reachable games ->
  games !! k = Some state ->
  GameState.hull state <= MAX_HULL
  /\ 0 <= GameState.credits state
  /\ 1 <= GameState.turn state
  /\ (forall e, GameState.pending_event state = Some e ->
                PendingEvent.type e = "pirate_ambush"
                /\ 1 <= PendingEvent.threat e <= 3).
Proof.
  intros Hr Hk.
  destruct (reachable_wf _ Hr _ _ Hk)
    as (_ & (_ & _ & Hh & Hc & He & _) & _ & Ht & _).
  done.
Qed.

(** X6. In every reachable store, the status of every session agrees
    with its fields at all times, not only after a resolved action: it
    is lost exactly when the hull is at or below 0, won exactly when
    the hull is above 0, the credits are at least GOAL_CREDITS and the
    ship is at (0,0), and active otherwise. *)
Theorem reachable_status_consistent games k state :
  reachable games ->
  games !! k = Some state ->
  (GameState.status state = lost <-> GameState.hull state <= 0)
  /\ (GameState.status state = won <->
      0 < GameState.hull state /\ GOAL_CREDITS <= GameState.credits state
      /\ GameState.x state = 0 /\ GameState.y state = 0)
  /\ (GameState.status state = active <->
      0 < GameState.hull state
      /\ ~ (GOAL_CREDITS <= GameState.credits state
            /\ GameState.x state = 0 /\ GameState.y state = 0)).
Proof.
  intros Hr Hk.
  destruct (reachable_wf _ Hr _ _ Hk) as (_ & _ & _ & _ & Hs & _).
  rewrite Hs. unfold status_of.
  destruct (GameState.hull state <=? 0) eqn:Eh;
    [|destruct (_ && _ && _) eqn:Ew];
    repeat split; intros; try discriminate; try lia.
Qed.

(** X7. In every reachable store, every session is stored under its own
    identifier, its seed lies in [1, 999999], it has 10 anomalies, each
    with a name of the table, a position on the map, a value in
    [10, 40] and a risk in [1, 4], and 3 stations, each on the map, off
    the base tile and at a position of its own. *)
Theorem reachable_world_valid games k state :
  reachable games ->
  games !! k = Some state ->
  GameState.id state = k
  /\ 1 <= GameState.seed state <= 999999
  /\ length (GameState.anomalies state) = 10%nat
  /\ Forall anomaly_valid (GameState.anomalies state)
  /\ length (GameState.stations state) = 3%nat
  /\ Forall station_valid (GameState.stations state)
  /\ NoDup (station_pos <$> GameState.stations state).
Proof.
  intros Hr Hk.
  destruct (reachable_wf _ Hr _ _ Hk)
    as (Hid & (_ & _ & _ & _ & _ & Ha & Hl) & Hs & _ & _ & Hn & Hv & Hd).
  done.
Qed.

End Sessions.

Section Contracts.
Context `{py : PyRuntime}.

Ltac unfold_branch :=
  cbv [act_scan act_travel act_salvage act_trade act_refuel
       act_repair act_fight act_bribe act_evade bad_request log_append
       mbind mret M_bind M_ret get modify raise].

(** An action the gate lets through and the branch resolves. *)
Lemma act_resolved games request state s1 nearby :
  games !! ActionRequest.game_id request = Some state ->
  GameState.status state = active ->
  GameState.pending_event state = None
  \/ lower (ActionRequest.action request) ∈ ["fight"; "bribe"; "evade"] ->
  act_dispatch request (lower (ActionRequest.action request))
               (action_rng state) state = (s1, Return nearby) ->
  act games request
  = (<[ActionRequest.game_id request := finish s1]> games,
     Return (public_state (finish s1) nearby)).
Proof.
  intros Hg Ha Hgate Hrun.
  rewrite (act_found _ _ _ Hg), act_session_active by done.
  assert (bool_decide (is_Some (GameState.pending_event state))
          && negb (bool_decide (lower (ActionRequest.action request)
                                ∈ ["fight"; "bribe"; "evade"])) = false)
    as ->.
  { destruct Hgate as [Hp|Hin].
    - rewrite Hp. by rewrite (bool_decide_eq_false_2 (is_Some None))
        by (by intros [? ?]).
    - rewrite (bool_decide_eq_true_2 _ Hin). apply andb_false_r. }
  by rewrite Hrun.
Qed.

(** An action the gate lets through and the branch rejects before it
    changes the session. *)
Lemma act_rejected games request state e :
  games !! ActionRequest.game_id request = Some state ->
  GameState.status state = active ->
  GameState.pending_event state = None
  \/ lower (ActionRequest.action request) ∈ ["fight"; "bribe"; "evade"] ->
  act_dispatch request (lower (ActionRequest.action request))
               (action_rng state) state = (state, Raise e) ->
  act games request = (games, Raise e).
Proof.
  intros Hg Ha Hgate Hrun.
  rewrite (act_found _ _ _ Hg), act_session_active by done.
  assert (bool_decide (is_Some (GameState.pending_event state))
          && negb (bool_decide (lower (ActionRequest.action request)
                                ∈ ["fight"; "bribe"; "evade"])) = false)
    as ->.
  { destruct Hgate as [Hp|Hin].
    - rewrite Hp. by rewrite (bool_decide_eq_false_2 (is_Some None))
        by (by intros [? ?]).
    - rewrite (bool_decide_eq_true_2 _ Hin). apply andb_false_r. }
  rewrite Hrun. cbn. by rewrite insert_id.
Qed.

Ltac split_ifs :=
  repeat match goal with
         | |- context [if ?b then _ else _] => destruct b eqn:?; try lia
         end.

Ltac finish_fields s1 :=
  let E1 := fresh in let E2 := fresh in let E3 := fresh in
  let E4 := fresh in let E5 := fresh in let E6 := fresh in
  let E7 := fresh in let E8 := fresh in let E9 := fresh in
  destruct (finish_frame s1) as (_&E1&E2&E3&E4&E5&E6&E7&E8&_&E9);
  rewrite ?E1, ?E2, ?E3, ?E4, ?E5, ?E6, ?E7, ?E8, ?E9;
  clear E1 E2 E3 E4 E5 E6 E7 E8 E9.

(** X8. Refuel on an active session with no pending event is rejected
    away from the base, then with fewer than 5 credits, then with the
    fuel at MAX_FUEL, each time with a validation error and the store
    unchanged; otherwise it takes 5 credits, sets the fuel to the
    minimum of MAX_FUEL and the fuel plus 3, appends one log entry and
    advances the turn, and changes nothing else. *)
Theorem refuel_contract games request state :
  games !! ActionRequest.game_id request = Some state ->
  GameState.status state = active ->
  GameState.pending_event state = None ->
  lower (ActionRequest.action request) = "refuel" ->
  (GameState.x state <> 0 \/ GameState.y state <> 0 ->
   act games request
   = (games, Raise (HTTPException 400 "Refuel only at base")))
  /\ (GameState.x state = 0 -> GameState.y state = 0 ->
      GameState.credits state < 5 ->
      act games request
      = (games, Raise (HTTPException 400 "Not enough credits")))
  /\ (GameState.x state = 0 -> GameState.y state = 0 ->
      5 <= GameState.credits state -> MAX_FUEL <= GameState.fuel state ->
      act games request
      = (games, Raise (HTTPException 400 "Fuel already full")))
  /\ (GameState.x state = 0 -> GameState.y state = 0 ->
      5 <= GameState.credits state -> GameState.fuel state < MAX_FUEL ->
      exists state',
        act games request
        = (<[ActionRequest.game_id request := state']> games,
           Return (public_state state' None))
        /\ GameState.credits state' = GameState.credits state - 5
        /\ GameState.fuel state'
           = Z.min MAX_FUEL (GameState.fuel state + 3)
        /\ GameState.hull state' = GameState.hull state
        /\ GameState.x state' = 0 /\ GameState.y state' = 0
        /\ GameState.turn state' = GameState.turn state + 1
        /\ GameState.log state'
           = GameState.log state ++ ["Docking bay topped off fuel reserves."]
        /\ GameState.anomalies state' = GameState.anomalies state
        /\ GameState.pending_event state' = None).
Proof.
  intros Hg Ha Hp Hact.
  split_and!; intros.
  1-3: apply (act_rejected _ _ _ _ Hg Ha (or_introl Hp));
       rewrite Hact, act_dispatch_refuel; unfold_branch; by split_ifs.
  eexists (finish _). split.
  - eapply (act_resolved _ _ _ _ _ Hg Ha (or_introl Hp)).
    rewrite Hact, act_dispatch_refuel. unfold_branch. by split_ifs.
  - match goal with |- context [finish ?s] => finish_fields s end.
    cbn. rewrite Hp. split_and!; try done; lia.
Qed.


Lemma act_dispatch_repair request rng :
  act_dispatch request "repair" rng = (act_repair;; mret None).
Proof. reflexivity. Qed.

Lemma act_dispatch_scan request rng :
  act_dispatch request "scan" rng = (nearby ← act_scan; mret (Some nearby)).
Proof. reflexivity. Qed.

(** X9. Repair on an active session with no pending event is rejected
    away from the base, then with fewer than 8 credits, then with the
    hull at MAX_HULL, each time with a validation error and the store
    unchanged; otherwise it takes 8 credits, sets the hull to the
    minimum of MAX_HULL and the hull plus 2, appends one log entry and
    advances the turn, and changes nothing else. *)
Theorem repair_contract games request state :
  games !! ActionRequest.game_id request = Some state ->
  GameState.status state = active ->
  GameState.pending_event state = None ->
  lower (ActionRequest.action request) = "repair" ->
  (GameState.x state <> 0 \/ GameState.y state <> 0 ->
   act games request
   = (games, Raise (HTTPException 400 "Repair only at base")))
  /\ (GameState.x state = 0 -> GameState.y state = 0 ->
      GameState.credits state < 8 ->
      act games request
      = (games, Raise (HTTPException 400 "Not enough credits")))
  /\ (GameState.x state = 0 -> GameState.y state = 0 ->
      8 <= GameState.credits state -> MAX_HULL <= GameState.hull state ->
      act games request
      = (games, Raise (HTTPException 400 "Hull already full")))
  /\ (GameState.x state = 0 -> GameState.y state = 0 ->
      8 <= GameState.credits state -> GameState.hull state < MAX_HULL ->
      exists state',
        act games request
        = (<[ActionRequest.game_id request := state']> games,
           Return (public_state state' None))
        /\ GameState.credits state' = GameState.credits state - 8
        /\ GameState.hull state'
           = Z.min MAX_HULL (GameState.hull state + 2)
        /\ GameState.fuel state' = GameState.fuel state
        /\ GameState.x state' = 0 /\ GameState.y state' = 0
        /\ GameState.turn state' = GameState.turn state + 1
        /\ GameState.log state'
           = GameState.log state ++ ["Mechanics sealed the hull fractures."]
        /\ GameState.anomalies state' = GameState.anomalies state
        /\ GameState.pending_event state' = None).
Proof.
  intros Hg Ha Hp Hact.
  split_and!; intros.
  1-3: apply (act_rejected _ _ _ _ Hg Ha (or_introl Hp));
       rewrite Hact, act_dispatch_repair; unfold_branch; by split_ifs.
  eexists (finish _). split.
  - eapply (act_resolved _ _ _ _ _ Hg Ha (or_introl Hp)).
    rewrite Hact, act_dispatch_repair. unfold_branch. by split_ifs.
  - match goal with |- context [finish ?s] => finish_fields s end.
    cbn. rewrite Hp. split_and!; try done; lia.
Qed.

(** X10. Trade on an active session with no pending event is rejected
    when the ship is on the tile of no station, when the item is
    neither [fuel_cell] nor [hull_patch], when the credits are below
    the price (4 and 6), and when the resource is at its cap, each time
    with a validation error and the store unchanged; otherwise it takes
    the price and adds 2 fuel or 1 hull, capped at MAX_FUEL and
    MAX_HULL, appends one log entry and advances the turn. *)
Theorem trade_contract games request state :
  games !! ActionRequest.game_id request = Some state ->
  GameState.status state = active ->
  GameState.pending_event state = None ->
  lower (ActionRequest.action request) = "trade" ->
  (current_station state = None ->
   act games request
   = (games, Raise (HTTPException 400 "No trade station here")))
  /\ (is_Some (current_station state) ->
      (ActionRequest.item request <> Some "fuel_cell" ->
       ActionRequest.item request <> Some "hull_patch" ->
       act games request
       = (games, Raise (HTTPException 400 "Invalid trade item")))
      /\ (ActionRequest.item request = Some "fuel_cell" ->
          (GameState.credits state < 4 ->
           act games request
           = (games, Raise (HTTPException 400 "Not enough credits")))
          /\ (4 <= GameState.credits state ->
              MAX_FUEL <= GameState.fuel state ->
              act games request
              = (games, Raise (HTTPException 400 "Fuel already full")))
          /\ (4 <= GameState.credits state ->
              GameState.fuel state < MAX_FUEL ->
              exists state',
                act games request
                = (<[ActionRequest.game_id request := state']> games,
                   Return (public_state state' None))
                /\ GameState.credits state' = GameState.credits state - 4
                /\ GameState.fuel state'
                   = Z.min MAX_FUEL (GameState.fuel state + 2)
                /\ GameState.hull state' = GameState.hull state
                /\ GameState.turn state' = GameState.turn state + 1
                /\ GameState.log state'
                   = GameState.log state ++ ["Traded for fuel cells."]))
      /\ (ActionRequest.item request = Some "hull_patch" ->
          (GameState.credits state < 6 ->
           act games request
           = (games, Raise (HTTPException 400 "Not enough credits")))
          /\ (6 <= GameState.credits state ->
              MAX_HULL <= GameState.hull state ->
              act games request
              = (games, Raise (HTTPException 400 "Hull already full")))
          /\ (6 <= GameState.credits state ->
              GameState.hull state < MAX_HULL ->
              exists state',
                act games request
                = (<[ActionRequest.game_id request := state']> games,
                   Return (public_state state' None))
                /\ GameState.credits state' = GameState.credits state - 6
                /\ GameState.hull state'
                   = Z.min MAX_HULL (GameState.hull state + 1)
                /\ GameState.fuel state' = GameState.fuel state
                /\ GameState.turn state' = GameState.turn state + 1
                /\ GameState.log state'
                   = GameState.log state ++ ["Installed a fresh hull patch."]))).
Proof.
  intros Hg Ha Hp Hact.
  split; [|intros [station Hst]; split_and!]; intros; split_and?; intros.
  1-4,6-7: apply (act_rejected _ _ _ _ Hg Ha (or_introl Hp));
    rewrite Hact, act_dispatch_trade; unfold_branch;
    repeat match goal with H : _ = _ |- _ => rewrite H end;
    repeat case_decide; try done; by split_ifs.
  all: eexists (finish _); split;
    [eapply (act_resolved _ _ _ _ _ Hg Ha (or_introl Hp));
     rewrite Hact, act_dispatch_trade; unfold_branch;
     repeat match goal with H : _ = _ |- _ => rewrite H end;
     repeat case_decide; try done; by split_ifs
    |match goal with |- context [finish ?s] => finish_fields s end;
     cbn; split_and!; try done; lia].
Qed.


Lemma in_resolution (a : string) :
  a = "fight" \/ a = "bribe" \/ a = "evade" ->
  a ∈ ["fight"; "bribe"; "evade"].
Proof. intros [ -> | [ -> | -> ] ]; set_solver. Qed.

(** X11. Fight, bribe and evade on an active session with no pending
    event fail with the validation error [No active threat] and leave
    the store unchanged. *)
Theorem no_threat_rejected games request state :
  games !! ActionRequest.game_id request = Some state ->
  GameState.status state = active ->
  GameState.pending_event state = None ->
  lower (ActionRequest.action request) = "fight"
  \/ lower (ActionRequest.action request) = "bribe"
  \/ lower (ActionRequest.action request) = "evade" ->
  act games request = (games, Raise (HTTPException 400 "No active threat")).
Proof.
  intros Hg Ha Hp Hact.
  apply (act_rejected _ _ _ _ Hg Ha (or_introl Hp)).
  destruct Hact as [ -> | [ -> | -> ] ];
    rewrite ?act_dispatch_fight, ?act_dispatch_bribe, ?act_dispatch_evade;
    unfold_branch; by rewrite Hp.
Qed.

(** X12. Bribe on an active session with a pending event of threat [t]
    fails with a validation error, the store unchanged, when the
    credits are below [8 * t]; otherwise it takes [8 * t] credits,
    clears the event, appends one log entry and advances the turn, and
    leaves fuel, hull and position as they were. *)
Theorem bribe_contract games request state event :
  games !! ActionRequest.game_id request = Some state ->
  GameState.status state = active ->
  GameState.pending_event state = Some event ->
  lower (ActionRequest.action request) = "bribe" ->
  (GameState.credits state < PendingEvent.threat event * 8 ->
   act games request
   = (games, Raise (HTTPException 400 "Not enough credits")))
  /\ (PendingEvent.threat event * 8 <= GameState.credits state ->
      exists state',
        act games request
        = (<[ActionRequest.game_id request := state']> games,
           Return (public_state state' None))
        /\ GameState.credits state'
           = GameState.credits state - PendingEvent.threat event * 8
        /\ GameState.pending_event state' = None
        /\ GameState.fuel state' = GameState.fuel state
        /\ GameState.hull state' = GameState.hull state
        /\ GameState.x state' = GameState.x state
        /\ GameState.y state' = GameState.y state
        /\ GameState.turn state' = GameState.turn state + 1
        /\ GameState.log state'
           = GameState.log state ++ ["Paid off the pirates. They drift away."]).
Proof.
  intros Hg Ha Hp Hact.
  assert (lower (ActionRequest.action request) ∈ ["fight"; "bribe"; "evade"])
    as Hin by (apply in_resolution; auto).
  split; intros.
  - apply (act_rejected _ _ _ _ Hg Ha (or_intror Hin)).
    rewrite Hact, act_dispatch_bribe. unfold_branch. rewrite Hp.
    by split_ifs.
  - eexists (finish _). split.
    + eapply (act_resolved _ _ _ _ _ Hg Ha (or_intror Hin)).
      rewrite Hact, act_dispatch_bribe. unfold_branch. rewrite Hp.
      by split_ifs.
    + match goal with |- context [finish ?s] => finish_fields s end.
      cbn. split_and!; try done; lia.
Qed.

(** X13. Fight on an active session with a pending event of threat [t]
    always resolves.  The roll is the first draw of the generator of
    the action: below 0.55 the session gains [6 * t] credits and keeps
    its hull; otherwise the hull loses [t] and the credits lose the
    minimum of the credits and [4 * t].  Either way the event is
    cleared, one log entry is appended, the turn advances and fuel and
    position are as they were. *)
Theorem fight_contract games request state event :
  games !! ActionRequest.game_id request = Some state ->
  GameState.status state = active ->
  GameState.pending_event state = Some event ->
  lower (ActionRequest.action request) = "fight" ->
  let roll := (random (action_rng state)).1 in
  let threat := PendingEvent.threat event in
  exists state',
    act games request
    = (<[ActionRequest.game_id request := state']> games,
       Return (public_state state' None))
    /\ GameState.credits state'
       = (if (roll <? 0.55)%float
          then GameState.credits state + threat * 6
          else GameState.credits state
               - Z.min (GameState.credits state) (threat * 4))
    /\ GameState.hull state'
       = (if (roll <? 0.55)%float then GameState.hull state
          else GameState.hull state - threat)
    /\ GameState.log state'
       = GameState.log state
         ++ [if (roll <? 0.55)%float
             then "Fought off pirates and looted " +:+ str (threat * 6)
                  +:+ " credits."
             else "Pirates scored hits before breaking off."]
    /\ GameState.pending_event state' = None
    /\ GameState.fuel state' = GameState.fuel state
    /\ GameState.x state' = GameState.x state
    /\ GameState.y state' = GameState.y state
    /\ GameState.turn state' = GameState.turn state + 1.
Proof.
  intros Hg Ha Hp Hact roll threat. subst roll threat.
  assert (lower (ActionRequest.action request) ∈ ["fight"; "bribe"; "evade"])
    as Hin by (apply in_resolution; auto).
  destruct (random (action_rng state)) as [r rng'] eqn:Er. cbn [fst].
  destruct (r <? 0.55)%float eqn:Eroll;
    (eexists (finish _); split;
     [eapply (act_resolved _ _ _ _ _ Hg Ha (or_intror Hin));
      rewrite Hact, act_dispatch_fight; unfold_branch;
      rewrite Hp, Er, Eroll; reflexivity
     |match goal with |- context [finish ?s] => finish_fields s end;
      cbn; split_and!; done]).
Qed.

(** X14. Evade on an active session with a pending event fails with
    the validation error [Out of fuel], the store unchanged, when the
    fuel is at or below 0.  Otherwise it takes 1 fuel, takes 1 hull
    exactly when the first draw of the generator of the action is below
    0.4, clears the event, appends one log entry and advances the
    turn; credits and position are as they were. *)
Theorem evade_contract games request state event :
  games !! ActionRequest.game_id request = Some state ->
  GameState.status state = active ->
  GameState.pending_event state = Some event ->
  lower (ActionRequest.action request) = "evade" ->
  let roll := (random (action_rng state)).1 in
  (GameState.fuel state <= 0 ->
   act games request = (games, Raise (HTTPException 400 "Out of fuel")))
  /\ (0 < GameState.fuel state ->
      exists state',
        act games request
        = (<[ActionRequest.game_id request := state']> games,
           Return (public_state state' None))
        /\ GameState.fuel state' = GameState.fuel state - 1
        /\ GameState.hull state'
           = (if (roll <? 0.4)%float then GameState.hull state - 1
              else GameState.hull state)
        /\ GameState.log state'
           = GameState.log state
             ++ [if (roll <? 0.4)%float
                 then "Evasion failed. Took a glancing hit."
                 else "Evasion successful. Pirates lost the trail."]
        /\ GameState.pending_event state' = None
        /\ GameState.credits state' = GameState.credits state
        /\ GameState.x state' = GameState.x state
        /\ GameState.y state' = GameState.y state
        /\ GameState.turn state' = GameState.turn state + 1).
Proof.
  intros Hg Ha Hp Hact roll. subst roll.
  assert (lower (ActionRequest.action request) ∈ ["fight"; "bribe"; "evade"])
    as Hin by (apply in_resolution; auto).
  destruct (random (action_rng state)) as [r rng'] eqn:Er. cbn [fst].
  split; intros.
  - apply (act_rejected _ _ _ _ Hg Ha (or_intror Hin)).
    rewrite Hact, act_dispatch_evade. unfold_branch. rewrite Hp.
    by split_ifs.
  - destruct (GameState.fuel state <=? 0) eqn:Efuel; [lia|].
    destruct (r <? 0.4)%float eqn:Eroll;
      (eexists (finish _); split;
       [eapply (act_resolved _ _ _ _ _ Hg Ha (or_intror Hin));
        rewrite Hact, act_dispatch_evade; unfold_branch;
        rewrite Hp, Efuel, Er, Eroll; reflexivity
       |match goal with |- context [finish ?s] => finish_fields s end;
        cbn; split_and!; done]).
Qed.


Ltac case_match_hyp :=
  match goal with
  | H : context [match ?x with _ => _ end] |- _ => destruct x eqn:?
  end.

Ltac unfold_act_in H :=
  cbv [act_dispatch act_scan act_travel act_salvage act_trade act_refuel
       act_repair act_fight act_bribe act_evade bad_request log_append
       mbind mret M_bind M_ret get modify raise] in H.

Ltac split_orbs :=
  repeat match goal with
         | H : (_ || _) = false |- _ => apply orb_false_iff in H as [? ?]
         | H : (_ || _) = true |- _ => apply orb_true_iff in H as [?|?]
         end.

Lemma act_travel_moves request rng s s1 :
  act_travel request rng s = (s1, Return ()) ->
  exists dx dy,
    direction_delta (lower (default "" (ActionRequest.direction request)))
    = Some (dx, dy)
    /\ 0 < GameState.fuel s
    /\ on_map (GameState.x s + dx) (GameState.y s + dy)
    /\ GameState.x s1 = GameState.x s + dx
    /\ GameState.y s1 = GameState.y s + dy
    /\ GameState.fuel s1 = GameState.fuel s - 1
    /\ GameState.credits s1 = GameState.credits s
    /\ GameState.anomalies s1 = GameState.anomalies s
    /\ GameState.turn s1 = GameState.turn s.
Proof.
  intros Hrun. unfold direction_delta, on_map. unfold_act_in Hrun.
  repeat case_match_hyp; simplify_eq; split_orbs;
    do 2 eexists; (split; [reflexivity|]); cbn; unfold MAP_SIZE in *;
    split_and!; try done; lia.
Qed.

Lemma act_travel_raises request rng s s1 e :
  act_travel request rng s = (s1, Raise e) ->
  s1 = s
  /\ ((GameState.fuel s <= 0 /\ e = HTTPException 400 "Out of fuel")
      \/ (0 < GameState.fuel s
          /\ direction_delta
               (lower (default "" (ActionRequest.direction request))) = None
          /\ e = HTTPException 400 "Invalid direction")
      \/ (0 < GameState.fuel s
          /\ exists dx dy,
               direction_delta
                 (lower (default "" (ActionRequest.direction request)))
               = Some (dx, dy)
               /\ ~ on_map (GameState.x s + dx) (GameState.y s + dy)
               /\ e = HTTPException 400 "Out of bounds")).
Proof.
  intros Hrun. unfold direction_delta, on_map. unfold_act_in Hrun.
  repeat case_match_hyp; simplify_eq; (split; [done|]);
    first
      [ left; split; [lia | done]
      | right; left; split_and!; [lia | done | done]
      | right; right; split; [lia|]; do 2 eexists;
        split; [reflexivity|]; split; [|done];
        unfold MAP_SIZE in *; split_orbs; lia ].
Qed.

(** X15. Travel on an active session with no pending event is rejected,
    with a validation error and the store unchanged, when the fuel is
    at or below 0, then when the direction is not one of n, s, w, e in
    either letter case, then when the tile next to the ship in that
    direction is off the map.  Otherwise the ship moves to that tile
    (n and s change [y] by -1 and +1, w and e change [x] by -1 and +1),
    1 fuel is taken and the turn advances; credits and anomalies are
    as they were. *)
Theorem travel_contract games request state :
  games !! ActionRequest.game_id request = Some state ->
  GameState.status state = active ->
  GameState.pending_event state = None ->
  lower (ActionRequest.action request) = "travel" ->
  let d := lower (default "" (ActionRequest.direction request)) in
  (GameState.fuel state <= 0 ->
   act games request = (games, Raise (HTTPException 400 "Out of fuel")))
  /\ (0 < GameState.fuel state -> direction_delta d = None ->
      act games request
      = (games, Raise (HTTPException 400 "Invalid direction")))
  /\ (forall dx dy,
        0 < GameState.fuel state -> direction_delta d = Some (dx, dy) ->
        ~ on_map (GameState.x state + dx) (GameState.y state + dy) ->
        act games request
        = (games, Raise (HTTPException 400 "Out of bounds")))
  /\ (forall dx dy,
        0 < GameState.fuel state -> direction_delta d = Some (dx, dy) ->
        on_map (GameState.x state + dx) (GameState.y state + dy) ->
        exists state',
          act games request
          = (<[ActionRequest.game_id request := state']> games,
             Return (public_state state' None))
          /\ GameState.x state' = GameState.x state + dx
          /\ GameState.y state' = GameState.y state + dy
          /\ GameState.fuel state' = GameState.fuel state - 1
          /\ GameState.credits state' = GameState.credits state
          /\ GameState.anomalies state' = GameState.anomalies state
          /\ GameState.turn state' = GameState.turn state + 1).
Proof.
  intros Hg Ha Hp Hact d. subst d.
  pose proof (act_travel_moves request (action_rng state) state) as Hm.
  pose proof (act_travel_raises request (action_rng state) state) as Hr.
  assert (Hgate := or_introl Hp
            : GameState.pending_event state = None
              \/ lower (ActionRequest.action request)
                 ∈ ["fight"; "bribe"; "evade"]).
  destruct (act_travel request (action_rng state) state)
    as [s1 [[]|e]] eqn:E.
  - destruct (Hm s1 eq_refl)
      as (dx & dy & Hd & Hf & Hon & Hx & Hy & Hfu & Hc & Han & Ht).
    split_and!; intros; try lia; try congruence.
    exists (finish s1). split.
    + apply (act_resolved _ _ _ _ _ Hg Ha Hgate).
      rewrite Hact, act_dispatch_travel.
      cbv [mbind mret M_bind M_ret]. by rewrite E.
    + finish_fields s1. simplify_eq. split_and!; congruence.
  - destruct (Hr s1 e eq_refl) as [-> Hcases].
    assert (act games request = (games, Raise e)) as ->.
    { apply (act_rejected _ _ _ _ Hg Ha Hgate).
      rewrite Hact, act_dispatch_travel.
      cbv [mbind mret M_bind M_ret]. by rewrite E. }
    destruct Hcases as [[Hf ->]|[(Hf & Hd & ->)|(Hf & dx & dy & Hd & Hon & ->)]];
      split_and!; intros; try done; try lia; try congruence.
    all: simplify_eq; done.
Qed.


(** X16. Scan on an active session with no pending event always
    resolves.  The view lists, in the order of the session, the
    identifier, name, value and risk of exactly the anomalies that are
    uncollected and on the tile of the ship; one log entry is appended,
    which gives their number or says that there is none; the turn
    advances and position, fuel, hull, credits and anomalies are as
    they were. *)
Theorem scan_contract games request state :
  games !! ActionRequest.game_id request = Some state ->
  GameState.status state = active ->
  GameState.pending_event state = None ->
  lower (ActionRequest.action request) = "scan" ->
  exists state' view,
    act games request
    = (<[ActionRequest.game_id request := state']> games, Return view)
    /\ view = public_state state' (Some (nearby_of <$> anomalies_here state))
    /\ PublicState.nearby view = nearby_of <$> anomalies_here state
    /\ (forall a, a ∈ anomalies_here state <->
                  a ∈ GameState.anomalies state
                  /\ Anomaly.collected a = false
                  /\ Anomaly.x a = GameState.x state
                  /\ Anomaly.y a = GameState.y state)
    /\ GameState.log state'
       = GameState.log state
         ++ [match anomalies_here state with
             | [] => "Scan found nothing but cold dust."
             | _ => "Scan pinged "
                    +:+ str (Z.of_nat (length (anomalies_here state)))
                    +:+ " salvage signatures."
             end]
    /\ GameState.turn state' = GameState.turn state + 1
    /\ GameState.x state' = GameState.x state
    /\ GameState.y state' = GameState.y state
    /\ GameState.fuel state' = GameState.fuel state
    /\ GameState.hull state' = GameState.hull state
    /\ GameState.credits state' = GameState.credits state
    /\ GameState.anomalies state' = GameState.anomalies state
    /\ GameState.pending_event state' = None.
Proof.
  intros Hg Ha Hp Hact.
  assert (exists s1,
    act_scan state = (s1, Return (nearby_of <$> anomalies_here state))
    /\ s1 = GameState.set_log
              (GameState.log state
               ++ [match anomalies_here state with
                   | [] => "Scan found nothing but cold dust."
                   | _ => "Scan pinged "
                          +:+ str (Z.of_nat (length (anomalies_here state)))
                          +:+ " salvage signatures."
                   end]) state) as (s1 & Hrun & Hs1).
  { unfold_branch. unfold anomalies_here, nearby_of.
    destruct (filter _ (GameState.anomalies state)) as [|a l] eqn:Ef;
      cbn [fmap list_fmap]; eexists; (split; [reflexivity|]);
      cbn [length]; by rewrite ?length_fmap. }
  exists (finish s1), (public_state (finish s1)
                         (Some (nearby_of <$> anomalies_here state))).
  split_and!; try done.
  - apply (act_resolved _ _ _ _ _ Hg Ha (or_introl Hp)).
    rewrite Hact, act_dispatch_scan.
    cbv [mbind mret M_bind M_ret]. by rewrite Hrun.
  - intros a. unfold anomalies_here. rewrite list_elem_of_filter. tauto.
  - finish_fields s1. by subst s1.
  - finish_fields s1. by subst s1.
  - finish_fields s1. by subst s1.
  - finish_fields s1. by subst s1.
  - finish_fields s1. by subst s1.
  - finish_fields s1. by subst s1.
  - finish_fields s1. by subst s1.
  - finish_fields s1. by subst s1.
  - finish_fields s1. by subst s1.
Qed.

(** X17. On an active session with no pending event, a request whose
    action, in lower case, is none of the nine action names fails with
    the validation error [Unknown action] and leaves the store
    unchanged. *)
Theorem unknown_action_rejected games request state :
  games !! ActionRequest.game_id request = Some state ->
  GameState.status state = active ->
  GameState.pending_event state = None ->
  lower (ActionRequest.action request) ∉ action_names ->
  act games request = (games, Raise (HTTPException 400 "Unknown action")).
Proof.
  intros Hg Ha Hp Hno.
  apply (act_rejected _ _ _ _ Hg Ha (or_introl Hp)).
  unfold act_dispatch.
  repeat case_decide; try done;
    exfalso; apply Hno;
    match goal with H : lower _ = _ |- _ => rewrite H end;
    unfold action_names; set_solver.
Qed.

(** X18. Salvage on an active session with no pending event fails with
    a validation error, the store unchanged: [Missing target_id] when
    the request has no target or an empty one, [Invalid salvage target]
    when no anomaly has the target id or the first that has it is
    collected, and [Target not in sector] when that anomaly is not on
    the tile of the ship. *)
Theorem salvage_rejections games request state :
  games !! ActionRequest.game_id request = Some state ->
  GameState.status state = active ->
  GameState.pending_event state = None ->
  lower (ActionRequest.action request) = "salvage" ->
  (ActionRequest.target_id request = None
   \/ ActionRequest.target_id request = Some "" ->
   act games request
   = (games, Raise (HTTPException 400 "Missing target_id")))
  /\ (forall target,
        ActionRequest.target_id request = Some target -> target <> "" ->
        (list_find (fun a => Anomaly.id a = target) (GameState.anomalies state)
         = None ->
         act games request
         = (games, Raise (HTTPException 400 "Invalid salvage target")))
        /\ (forall i a,
              list_find (fun a => Anomaly.id a = target)
                        (GameState.anomalies state) = Some (i, a) ->
              (Anomaly.collected a = true ->
               act games request
               = (games, Raise (HTTPException 400 "Invalid salvage target")))
              /\ (Anomaly.collected a = false ->
                  Anomaly.x a <> GameState.x state
                  \/ Anomaly.y a <> GameState.y state ->
                  act games request
                  = (games,
                     Raise (HTTPException 400 "Target not in sector"))))).
Proof.
  intros Hg Ha Hp Hact.
  split; [intros [Ht|Ht]|intros target Ht Hne; split; [intros Hf|];
          [|intros i a Hf; split; [intros Hc|intros Hc Hpos]]];
    apply (act_rejected _ _ _ _ Hg Ha (or_introl Hp));
    rewrite Hact, act_dispatch_salvage; unfold_branch; rewrite Ht;
    try done;
    (destruct target as [|c t]; [done|]); rewrite Hf; try done;
    rewrite Hc; try done.
  destruct (negb (Anomaly.x a =? GameState.x state)
            || negb (Anomaly.y a =? GameState.y state)) eqn:E; [done|lia].
Qed.

End Contracts.

Section Views.
Context `{py : PyRuntime}.

Ltac unfold_act_in H :=
  cbv [act_dispatch act_scan act_travel act_salvage act_trade act_refuel
       act_repair act_fight act_bribe act_evade bad_request log_append
       mbind mret M_bind M_ret get modify raise] in H.

Ltac case_match_hyp :=
  match goal with
  | H : context [match ?x with _ => _ end] |- _ => destruct x eqn:?
  end.

Lemma then_None_nearby (m : M unit) s s1 nearby :
  (m;; mret (@None (list Nearby.t))) s = (s1, Return nearby) -> nearby = None.
Proof.
  cbv [mbind mret M_bind M_ret]. destruct (m s) as [s' [[]|e]]; congruence.
Qed.

Lemma dispatch_nearby request action rng s s1 nearby :
  act_dispatch request action rng s = (s1, Return nearby) ->
  action <> "scan" -> nearby = None.
Proof.
  unfold act_dispatch. intros Hrun Hne.
  repeat case_decide; try done; try by eapply then_None_nearby.
Qed.

(** X19. Whenever [act] returns a view, the view is the projection of
    the session as the store holds it after the call: it echoes the
    identifier, turn, position, fuel, hull, credits, status and pending
    event, shows the last entries of the log and the two constants of
    the map, and lists nothing nearby unless the action was a scan. *)
Theorem act_returns_projection games request games' view :
  act games request = (games', Return view) ->
  exists state',
    games' !! ActionRequest.game_id request = Some state'
    /\ PublicState.id view = GameState.id state'
    /\ PublicState.turn view = GameState.turn state'
    /\ PublicState.x view = GameState.x state'
    /\ PublicState.y view = GameState.y state'
    /\ PublicState.fuel view = GameState.fuel state'
    /\ PublicState.hull view = GameState.hull state'
    /\ PublicState.credits view = GameState.credits state'
    /\ PublicState.status view = GameState.status state'
    /\ PublicState.pendingEvent view = GameState.pending_event state'
    /\ PublicState.log view = last8 (GameState.log state')
    /\ PublicState.mapSize view = MAP_SIZE
    /\ PublicState.goalCredits view = GOAL_CREDITS
    /\ (lower (ActionRequest.action request) <> "scan" ->
        PublicState.nearby view = []).
Proof.
  unfold act. intros Hact.
  destruct (games !! ActionRequest.game_id request) as [state|] eqn:Hg;
    [|done].
  destruct (act_session request state) as [state' r] eqn:Hs. simplify_eq.
  exists state'. rewrite lookup_insert_eq. split; [done|].
  destruct (decide (GameState.status state = active)) as [Ha|Ha].
  - rewrite act_session_active in Hs by done.
    destruct (_ && _); [done|].
    destruct (act_dispatch _ _ _ state) as [s1 [nearby|e]] eqn:E;
      simplify_eq.
    split_and!; try done.
    intros Hne. by rewrite (dispatch_nearby _ _ _ _ _ _ E Hne).
  - rewrite act_session_terminal in Hs by done. simplify_eq. done.
Qed.

(** X20. The view shows the last 8 entries of the log: the whole log
    when it has at most 8 entries, and otherwise its 8 most recent
    ones, in their order. *)
Theorem view_log_last8 state nearby :
  let shown := PublicState.log (public_state state nearby) in
  length shown = Nat.min 8 (length (GameState.log state))
  /\ shown `suffix_of` GameState.log state
  /\ ((length (GameState.log state) <= 8)%nat -> shown = GameState.log state).
Proof.
  unfold public_state, last8. cbn [PublicState.log]. split_and!.
  - rewrite length_drop. lia.
  - apply suffix_drop.
  - intros Hl. replace (length (GameState.log state) - 8)%nat with 0%nat by lia.
    done.
Qed.

(** X21. The view shows a station exactly when a station of the session
    is on the tile of the ship; it then shows the identifier and the
    name of the first such station, with the two offers: fuel cells at
    4 credits and a hull patch at 6. *)
Theorem view_station state nearby :
  let shown := PublicState.station (public_state state nearby) in
  (shown = None <->
   forall st, st ∈ GameState.stations state ->
              ~ (Station.x st = GameState.x state
                 /\ Station.y st = GameState.y state))
  /\ (forall v, shown = Some v ->
        exists i st,
          GameState.stations state !! i = Some st
          /\ Station.x st = GameState.x state
          /\ Station.y st = GameState.y state
          /\ (forall j st', GameState.stations state !! j = Some st' ->
                (j < i)%nat ->
                ~ (Station.x st' = GameState.x state
                   /\ Station.y st' = GameState.y state))
          /\ StationView.id v = Station.id st
          /\ StationView.name v = Station.name st
          /\ StationView.offers v
             = [Offer.mk "fuel_cell" "Fuel Cells (+2 fuel)" 4;
                Offer.mk "hull_patch" "Hull Patch (+1 hull)" 6]).
Proof.
  unfold public_state, current_station. cbn [PublicState.station]. split.
  - rewrite !fmap_None, list_find_None, Forall_forall. done.
  - intros v Hv.
    apply fmap_Some in Hv as (st & Hst & ->).
    apply fmap_Some in Hst as ([i st'] & Hf & ->).
    apply list_find_Some in Hf as (Hi & Hpos & Hfirst).
    exists i, st'. cbn. destruct Hpos. split_and!; try done.
Qed.

Lemma Forall2_anomaly_kept_refl (l : list Anomaly.t) :
  Forall2 anomaly_kept l l.
Proof. apply Forall_Forall2_diag, Forall_forall. by intros a _. Qed.

Lemma act_salvage_anomalies request s s' r :
  act_salvage request s = (s', r) ->
  Forall2 anomaly_kept (GameState.anomalies s) (GameState.anomalies s').
Proof.
  intros Hrun. unfold_act_in Hrun.
  repeat case_match_hyp; simplify_eq; cbn;
    try apply Forall2_anomaly_kept_refl.
  all: match goal with
       | Hf : list_find _ _ = Some (?i, ?a) |- _ =>
         apply list_find_Some in Hf as (Hi & _ & _);
         rewrite <- (list_insert_id _ _ _ Hi) at 1;
         apply Forall2_insert; [apply Forall2_anomaly_kept_refl|];
         by unfold anomaly_kept
       end.
Qed.

Lemma dispatch_anomalies request action rng s s' r :
  act_dispatch request action rng s = (s', r) ->
  Forall2 anomaly_kept (GameState.anomalies s) (GameState.anomalies s').
Proof.
  intros Hrun.
  destruct (decide (action = "salvage")) as [->|Hne].
  - rewrite act_dispatch_salvage in Hrun.
    cbv [mbind mret M_bind M_ret] in Hrun.
    destruct (act_salvage request s) as [s1 [[]|e]] eqn:E; simplify_eq;
      by eapply act_salvage_anomalies.
  - assert (GameState.anomalies s' = GameState.anomalies s) as ->;
      [|apply Forall2_anomaly_kept_refl].
    unfold act_dispatch in Hrun.
    repeat case_decide; try done;
      unfold_act_in Hrun; repeat case_match_hyp; by simplify_eq.
Qed.

(** X22. [act] never rewrites the world or the history of a session:
    whatever the request and its outcome, the session keeps its
    identifier, seed and stations, every anomaly keeps its identifier,
    name, position, value and risk, an anomaly that was collected stays
    collected, the log only grows at its end and the turn does not go
    back. *)
Theorem act_keeps_world games request state :
  games !! ActionRequest.game_id request = Some state ->
  exists state',
    (act games request).1 !! ActionRequest.game_id request = Some state'
    /\ GameState.id state' = GameState.id state
    /\ GameState.seed state' = GameState.seed state
    /\ GameState.stations state' = GameState.stations state
    /\ Forall2 anomaly_kept (GameState.anomalies state)
                            (GameState.anomalies state')
    /\ GameState.log state `prefix_of` GameState.log state'
    /\ GameState.turn state <= GameState.turn state'.
Proof.
  intros Hg. rewrite (act_found _ _ _ Hg). cbn [fst].
  exists (act_session request state).1. rewrite lookup_insert_eq.
  split; [done|].
  destruct (decide (GameState.status state = active)) as [Ha|Ha];
    [|rewrite act_session_terminal by done; cbn;
      split_and!; try done; apply Forall2_anomaly_kept_refl].
  rewrite act_session_active by done.
  destruct (_ && _);
    [cbn; split_and!; try done; apply Forall2_anomaly_kept_refl|].
  destruct (act_dispatch _ _ _ state) as [s1 [nearby|e]] eqn:E;
    pose proof (act_dispatch_spec _ _ _ _ _ _ E) as Hspec;
    pose proof (dispatch_anomalies _ _ _ _ _ _ E) as Han; cbn in Hspec;
    cbn [fst].
  - destruct Hspec as ((Hi & Hse & Ht & _ & Hst & _) & (new & Hl & _) & _).
    destruct (finish_frame s1) as (Ei&Et&_&_&_&_&_&El&Ea&Es&_).
    rewrite Ei, finish_seed, Es, Ea, El, Et, Hi, Hse, Hst, Hl, Ht.
    split_and!; try done; [by eexists | lia].
  - destruct Hspec as [-> _]. split_and!; try done.
Qed.

End Views.

(** ** Further recorded steps *)

Lemma ambush_new_game :
  new_game (py:=cpython) 64 ∅ (MT19937.seed 1700000005) 0
  = Some (ambush_games0, public_state ambush_state0 None, 14%nat).
Proof.
  unfold new_game.
  assert (new_session (py:=cpython) 64 (MT19937.seed 1700000005) 0
          = Some (ambush_state0, 14%nat)) as -> by (vm_compute; reflexivity).
  cbn. by rewrite insert_empty.
Qed.

(** The witness of X2: the session the first run starts with. *)
Lemma new_game_initial_witness :
  exists state,
    ambush_games0 = <[uuid4_hex (PyRuntime:=cpython) 0 := state]> ∅
    /\ GameState.fuel state = MAX_FUEL
    /\ GameState.hull state = MAX_HULL
    /\ GameState.credits state = 20
    /\ GameState.status state = active.
Proof.
  destruct (new_game_initial (py:=cpython) 64 ∅ (MT19937.seed 1700000005) 0
              ambush_games0 (public_state ambush_state0 None) 14
              ambush_new_game)
    as (state & Hstore & _ & _ & _ & _ & _ & _ & Hf & Hh & Hc & Hs & _).
  exists state. split_and!; assumption.
Defined.

(** The witness of X4: the ship of the first run as it starts. *)
Lemma reachable_ship_on_map_witness :
  0 <= GameState.x ambush_state0 < MAP_SIZE
  /\ 0 <= GameState.y ambush_state0 < MAP_SIZE.
Proof.
  apply (reachable_ship_on_map (py:=cpython) ambush_games0 first_id
           ambush_state0).
  - exact ambush_games0_reachable.
  - apply store_lookup.
Defined.

(** The witness of X5: the resources of the second run when it is
    won. *)
Lemma reachable_resources_bounded_witness :
  GameState.hull win_state4 <= MAX_HULL
  /\ 0 <= GameState.credits win_state4
  /\ 1 <= GameState.turn win_state4
  /\ (forall e, GameState.pending_event win_state4 = Some e ->
                PendingEvent.type e = "pirate_ambush"
                /\ 1 <= PendingEvent.threat e <= 3).
Proof.
  apply (reachable_resources_bounded (py:=cpython) win_games4 first_id
           win_state4).
  - exact win_games4_reachable.
  - apply store_lookup.
Defined.

(** The witness of X6: the status of the second run when it is won. *)
Lemma reachable_status_consistent_witness :
  (GameState.status win_state4 = lost <-> GameState.hull win_state4 <= 0)
  /\ (GameState.status win_state4 = won <->
      0 < GameState.hull win_state4
      /\ GOAL_CREDITS <= GameState.credits win_state4
      /\ GameState.x win_state4 = 0 /\ GameState.y win_state4 = 0)
  /\ (GameState.status win_state4 = active <->
      0 < GameState.hull win_state4
      /\ ~ (GOAL_CREDITS <= GameState.credits win_state4
            /\ GameState.x win_state4 = 0 /\ GameState.y win_state4 = 0)).
Proof.
  apply (reachable_status_consistent (py:=cpython) win_games4 first_id
           win_state4).
  - exact win_games4_reachable.
  - apply store_lookup.
Defined.

(** The witness of X7: the world of the first run. *)
Lemma reachable_world_valid_witness :
  GameState.id ambush_state0 = first_id
  /\ 1 <= GameState.seed ambush_state0 <= 999999
  /\ length (GameState.anomalies ambush_state0) = 10%nat
  /\ Forall anomaly_valid (GameState.anomalies ambush_state0)
  /\ length (GameState.stations ambush_state0) = 3%nat
  /\ Forall station_valid (GameState.stations ambush_state0)
  /\ NoDup (station_pos <$> GameState.stations ambush_state0).
Proof.
  apply (reachable_world_valid (py:=cpython) ambush_games0 first_id
           ambush_state0).
  - exact ambush_games0_reachable.
  - apply store_lookup.
Defined.

(** The witness of X8: a refuel at the start of the first run, with
    the fuel full. *)
Lemma refuel_contract_witness :
  act (py:=cpython) ambush_games0 refuel
  = (ambush_games0, Raise (HTTPException 400 "Fuel already full")).
Proof.
  refine (proj1 (proj2 (proj2
            (refuel_contract (py:=cpython) ambush_games0 refuel ambush_state0
               (store_lookup _) eq_refl eq_refl eq_refl))) eq_refl eq_refl _ _).
  - vm_compute. discriminate.
  - vm_compute. discriminate.
Defined.

(** The witness of X9: a repair at the start of the first run, with
    the hull whole. *)
Lemma repair_contract_witness :
  act (py:=cpython) ambush_games0 (request_of "repair")
  = (ambush_games0, Raise (HTTPException 400 "Hull already full")).
Proof.
  refine (proj1 (proj2 (proj2
            (repair_contract (py:=cpython) ambush_games0 (request_of "repair")
               ambush_state0 (store_lookup _) eq_refl eq_refl eq_refl)))
            eq_refl eq_refl _ _).
  - vm_compute. discriminate.
  - vm_compute. discriminate.
Defined.

(** The witness of X10: a trade at the base, where no station is. *)
Lemma trade_contract_witness :
  act (py:=cpython) ambush_games0 (request_of "trade")
  = (ambush_games0, Raise (HTTPException 400 "No trade station here")).
Proof.
  exact (proj1 (trade_contract (py:=cpython) ambush_games0
                  (request_of "trade") ambush_state0
                  (store_lookup _) eq_refl eq_refl eq_refl) eq_refl).
Defined.

(** The witness of X11: a fight at the start of the first run. *)
Lemma no_threat_rejected_witness :
  act (py:=cpython) ambush_games0 (request_of "fight")
  = (ambush_games0, Raise (HTTPException 400 "No active threat")).
Proof.
  exact (no_threat_rejected (py:=cpython) ambush_games0 (request_of "fight")
           ambush_state0 (store_lookup _) eq_refl eq_refl
           (or_introl eq_refl)).
Defined.

(** The witness of X12: the ambush of the first run, bribed for 8
    credits of the 20. *)
Lemma bribe_contract_witness :
  exists state',
    act (py:=cpython) ambush_games1 (request_of "bribe")
    = (<[first_id := state']> ambush_games1,
       Return (public_state state' None))
    /\ GameState.credits state' = 12
    /\ GameState.pending_event state' = None.
Proof.
  destruct (proj2 (bribe_contract (py:=cpython) ambush_games1
                     (request_of "bribe") ambush_state1
                     (PendingEvent.mk "pirate_ambush" 1)
                     (store_lookup _) eq_refl eq_refl eq_refl))
    as (state' & Hact & Hc & Hp & _).
  - vm_compute. discriminate.
  - exists state'. split_and!; assumption.
Defined.

(** The witness of X13: the ambush of the first run, fought. *)
Lemma fight_contract_witness :
  exists state',
    act (py:=cpython) ambush_games1 (request_of "fight")
    = (<[first_id := state']> ambush_games1,
       Return (public_state state' None))
    /\ GameState.pending_event state' = None
    /\ GameState.turn state' = 3.
Proof.
  destruct (fight_contract (py:=cpython) ambush_games1
              (request_of "fight") ambush_state1
              (PendingEvent.mk "pirate_ambush" 1)
              (store_lookup _) eq_refl eq_refl eq_refl)
    as (state' & Hact & _ & _ & _ & Hp & _ & _ & _ & Ht).
  exists state'. split_and!; assumption.
Defined.

(** The witness of X14: the ambush of the first run, evaded. *)
Lemma evade_contract_witness :
  exists state',
    act (py:=cpython) ambush_games1 (request_of "evade")
    = (<[first_id := state']> ambush_games1,
       Return (public_state state' None))
    /\ GameState.fuel state' = 10
    /\ GameState.pending_event state' = None.
Proof.
  destruct (proj2 (evade_contract (py:=cpython) ambush_games1
                     (request_of "evade") ambush_state1
                     (PendingEvent.mk "pirate_ambush" 1)
                     (store_lookup _) eq_refl eq_refl eq_refl))
    as (state' & Hact & Hf & _ & _ & Hp & _).
  - vm_compute. reflexivity.
  - exists state'. split_and!; assumption.
Defined.

(** The witness of X15: a move north from the base, off the map. *)
Lemma travel_contract_witness :
  act (py:=cpython) ambush_games0
      (ActionRequest.mk first_id "TRAVEL" (Some "N") None None)
  = (ambush_games0, Raise (HTTPException 400 "Out of bounds")).
Proof.
  refine (proj1 (proj2 (proj2
            (travel_contract (py:=cpython) ambush_games0
               (ActionRequest.mk first_id "TRAVEL" (Some "N") None None)
               ambush_state0 (store_lookup _) eq_refl eq_refl eq_refl)))
            0 (-1) _ eq_refl _).
  - vm_compute. reflexivity.
  - intros [_ [Hy _]]. vm_compute in Hy. by apply Hy.
Defined.

(** The witness of X16: a scan at the start of the second run, which
    finds the four anomalies of the base tile. *)
Lemma scan_contract_witness :
  exists state' view,
    act (py:=cpython) win_games0 (request_of "scan")
    = (<[first_id := state']> win_games0, Return view)
    /\ length (PublicState.nearby view) = 4%nat
    /\ GameState.turn state' = 2.
Proof.
  destruct (scan_contract (py:=cpython) win_games0 (request_of "scan")
              win_state0 (store_lookup _) eq_refl eq_refl eq_refl)
    as (state' & view & Hact & _ & Hn & _ & _ & Ht & _).
  exists state', view. rewrite Hn. split_and!; [assumption|reflexivity|assumption].
Defined.

(** The witness of X17: an action name the game does not have. *)
Lemma unknown_action_rejected_witness :
  act (py:=cpython) ambush_games0 (request_of "dock")
  = (ambush_games0, Raise (HTTPException 400 "Unknown action")).
Proof.
  apply (unknown_action_rejected (py:=cpython) ambush_games0
           (request_of "dock") ambush_state0 (store_lookup _) eq_refl eq_refl).
  apply (bool_decide_unpack _). vm_compute. exact I.
Defined.

(** The witness of X18: a salvage that names no target. *)
Lemma salvage_rejections_witness :
  act (py:=cpython) ambush_games0 (request_of "salvage")
  = (ambush_games0, Raise (HTTPException 400 "Missing target_id")).
Proof.
  exact (proj1 (salvage_rejections (py:=cpython) ambush_games0
                  (request_of "salvage") ambush_state0
                  (store_lookup _) eq_refl eq_refl eq_refl)
           (or_introl eq_refl)).
Defined.

(** The witness of X19: the view of the move east of the first run. *)
Lemma act_returns_projection_witness :
  exists state',
    ambush_games1 !! first_id = Some state'
    /\ PublicState.fuel (public_state ambush_state1 None)
       = GameState.fuel state'
    /\ PublicState.nearby (public_state ambush_state1 None) = [].
Proof.
  destruct (act_returns_projection (py:=cpython) ambush_games0 travel_east
              ambush_games1 (public_state ambush_state1 None) ambush_travel)
    as (state' & Hl & _ & _ & _ & _ & Hf & _ & _ & _ & _ & _ & _ & _ & Hn).
  exists state'. split_and!; [assumption|assumption|].
  apply Hn. vm_compute. discriminate.
Defined.

(** The witness of X22: the fourth salvage of the second run. *)
Lemma act_keeps_world_witness :
  exists state',
    (act (py:=cpython) win_games3
         (salvage "0000000a000040008000000000000000")).1 !! first_id
    = Some state'
    /\ GameState.stations state' = GameState.stations win_state3
    /\ Forall2 anomaly_kept (GameState.anomalies win_state3)
                            (GameState.anomalies state')
    /\ GameState.log win_state3 `prefix_of` GameState.log state'.
Proof.
  destruct (act_keeps_world (py:=cpython) win_games3
              (salvage "0000000a000040008000000000000000") win_state3
              (store_lookup _))
    as (state' & Hl & _ & _ & Hst & Han & Hlog & _).
  exists state'. split_and!; assumption.
Defined.
